(** * sketch: a shallow embedding of the request-dispatch pipeline

    The development follows the package [src/sketch/]: the response model
    ([response.py]), the error taxonomy ([exceptions.py]), the router
    ([router.py]), the generic-failure formatter ([helpers.py]), the
    application dispatch ([application.py]) and the connection adapter
    ([server.py], [http_parser.py]).  The older single-file copy
    [src/sketch.py] differs in two places that matter below (its
    [Response.__str__] has no [Content-Length] line and its [_handler] calls
    the middlewares one after the other); the second is embedded next to the
    package version.

    Conventions.
    - Python [str] and [bytes] values are Rocq strings, one [ascii] per
      character.  The model covers ASCII text: there [len] of a [str] is
      its UTF-8 byte length, [decode]/[encode] are the identity, and the
      regular expression class [\w] is [[A-Za-z0-9_]].
    - A Python [dict] is an association list in insertion order.
    - A call that may raise returns a [result]; the exception classes the
      program distinguishes ([HTTPException], [Exception], [BaseException])
      are the constructors of [exn].
    - Library code that is not part of the repository and that the program
      only calls ([re.match], the status phrase table of [http.server], the
      [httptools] parser, [yarl.URL], the interpreter's traceback text) is a
      [Variable] of the section that uses it; a concrete regular expression
      engine for the patterns the router emits is given in [Module re]. *)

From Stdlib Require Import String Ascii List ZArith Bool Arith Lia.
From Stdlib Require Import DecimalString.
Import ListNotations.

Open Scope string_scope.
Open Scope list_scope.

(** ** Python values *)

Definition nl : string := String (ascii_of_nat 10) EmptyString.

(** [str(n)] for a non-negative [int]. *)
Definition str_of_nat (n : nat) : string :=
  NilEmpty.string_of_uint (Nat.to_uint n).

(** [str(z)] for an [int]. *)
Definition str_of_Z (z : Z) : string :=
  NilZero.string_of_int (Z.to_int z).

(** [sep.join(parts)]. *)
Fixpoint join (sep : string) (parts : list string) : string :=
  match parts with
  | [] => ""
  | [p] => p
  | p :: ps => (p ++ sep ++ join sep ps)%string
  end.

(** [s[a:b]] for [0 <= a]. *)
Definition slice (s : string) (a b : nat) : string :=
  substring a (b - a) s.

(** [bytes.decode(encoding)], on ASCII bytes. *)
Definition decode (encoding : string) (b : string) : string := b.

Section Dict.
Context {K V : Type} (eqb : K -> K -> bool).

(** [d[k] = v]: an existing key keeps its place, a new key goes last. *)
Fixpoint dict_set (d : list (K * V)) (k : K) (v : V) : list (K * V) :=
  match d with
  | [] => [(k, v)]
  | (k', v') :: d' =>
      if eqb k' k then (k', v) :: d' else (k', v') :: dict_set d' k v
  end.

(** [d.get(k)]. *)
Fixpoint dict_get (d : list (K * V)) (k : K) : option V :=
  match d with
  | [] => None
  | (k', v') :: d' => if eqb k' k then Some v' else dict_get d' k
  end.
End Dict.

Definition keys {K V : Type} (d : list (K * V)) : list K := map fst d.

(** ** Responses, exceptions and results *)

(** The state of a [Response] object ([response.py], [Response.__init__]).
    [_status] is an [int], or [None] for the base class [HTTPException]. *)
Record Response := mkResponse {
  _version : string;
  _status : option Z;
  _body : option string;
  _content_type : string;
  _headers : list (string * string)
}.

(** An exception object that is not an [HTTPException]: its class name,
    [str(exc)], and the text [traceback.format_exc()] renders while it is
    being handled. *)
Record PyExc := {
  exc_class : string;
  exc_str : string;
  exc_traceback : string
}.

Inductive exn :=
| HTTPException (exc : Response)  (* an instance of HTTPException: it is a Response *)
| Exc (exc : PyExc)               (* any other instance of Exception *)
| BaseExc (exc : PyExc).          (* a BaseException outside Exception: SystemExit, KeyboardInterrupt, ... *)

Inductive result (A : Type) :=
| Ok (a : A)
| Raise (e : exn).
Arguments Ok {A} a.
Arguments Raise {A} e.

Definition bind {A B : Type} (m : result A) (k : A -> result B) : result B :=
  match m with
  | Ok a => k a
  | Raise e => Raise e
  end.

Notation "x <- m ;; k" := (bind m (fun x => k))
  (at level 61, m at next level, right associativity).

(** [for x in xs: acc = body(acc, x)], where the body may raise. *)
Fixpoint for_each {A X : Type} (xs : list X) (body : A -> X -> result A)
    (acc : A) : result A :=
  match xs with
  | [] => Ok acc
  | x :: xs' => acc' <- body acc x ;; for_each xs' body acc'
  end.

(** The [TypeError] of [a, b = None]. *)
Definition TypeError_unpack (tb : string) : exn :=
  Exc {| exc_class := "TypeError";
         exc_str := "cannot unpack non-iterable NoneType object";
         exc_traceback := tb |}.

(** The [TypeError] of [len(None)]. *)
Definition TypeError_len (tb : string) : exn :=
  Exc {| exc_class := "TypeError";
         exc_str := "object of type 'NoneType' has no len()";
         exc_traceback := tb |}.

(** The [NameError] of reading a global name that is not bound. *)
Definition NameError (name tb : string) : exn :=
  Exc {| exc_class := "NameError";
         exc_str := "name '" ++ name ++ "' is not defined";
         exc_traceback := tb |}.

(** ** response.py *)

Module response.

(** [Response(body=None, status=200, content_type="text/plain",
    headers=None, version="1.1")]. *)
Definition __init__ (body : option string) (status : option Z)
    (content_type : string) (headers : option (list (string * string)))
    (version : string) : Response :=
  {| _version := version;
     _status := status;
     _body := body;
     _content_type := content_type;
     _headers := match headers with None => [] | Some h => h end |}.

Definition add_body (self : Response) (data : string) : Response :=
  {| _version := _version self; _status := _status self;
     _body := Some data; _content_type := _content_type self;
     _headers := _headers self |}.

Definition add_header (self : Response) (key value : string) : Response :=
  {| _version := _version self; _status := _status self;
     _body := _body self; _content_type := _content_type self;
     _headers := dict_set String.eqb (_headers self) key value |}.

Section Serialization.
(** [http.server.BaseHTTPRequestHandler.responses]: status code to
    (phrase, description). *)
Variable web_responses : Z -> option (string * string).
(** Traceback text of an exception raised inside [__str__]. *)
Variable tb : string.

Definition lookup_status (status : option Z) : option (string * string) :=
  match status with
  | Some code => web_responses code
  | None => None
  end.

Definition __str__ (self : Response) : result string :=
  (* status_msg, _ = web_responses.get(self._status) *)
  status_msg <- match lookup_status (_status self) with
                | Some (status_msg, _) => Ok status_msg
                | None => Raise (TypeError_unpack tb)
                end ;;
  (* the list display; len(self._body) raises on None *)
  body_len <- match _body self with
              | Some b => Ok (String.length b)
              | None => Raise (TypeError_len tb)
              end ;;
  let messages :=
    [ "HTTP/" ++ _version self ++ " "
        ++ match _status self with Some c => str_of_Z c | None => "None" end
        ++ " " ++ status_msg;
      "Content-Type: " ++ _content_type self;
      "Content-Length: " ++ str_of_nat body_len;
      "Connection: close" ]%string in
  (* if self._headers: for header, value in self._headers.items(): ... *)
  let messages :=
    match _headers self with
    | [] => messages
    | hs => messages ++ map (fun hv => (fst hv ++ ": " ++ snd hv)%string) hs
    end in
  (* if self._body is not None: a line break and the body are appended *)
  let messages :=
    match _body self with
    | Some b => messages ++ [(nl ++ b)%string]
    | None => messages
    end in
  Ok (join nl messages).
End Serialization.

End response.

(** ** exceptions.py *)

Module exceptions.

(** [HTTPException.__init__] of a class whose [status_code] is given;
    [content_type or "text/plain"] replaces [None] and the empty
    string. *)
Definition __init__ (status_code : option Z) (reason : option string)
    (content_type : option string) : Response :=
  response.__init__ reason status_code
    (match content_type with
     | None => "text/plain"
     | Some "" => "text/plain"
     | Some c => c
     end)
    None "1.1".

Definition HTTPNotFound (reason content_type : option string) : Response :=
  __init__ (Some 404%Z) reason content_type.

Definition HTTPBadRequest (reason content_type : option string) : Response :=
  __init__ (Some 400%Z) reason content_type.

Definition HTTPFound (location : string) (reason content_type : option string)
    : Response :=
  response.add_header (__init__ (Some 302%Z) reason content_type)
    "Location" location.

End exceptions.

(** ** The regular expressions of the router

    [re.match] and [re.finditer] for the pattern language the router uses:
    literal characters and named groups [(?P<name>\w+)].  [compile] reads
    the pattern text as Python's parser does on that language and answers
    [Unsupported] on any other construct, which this engine does not
    interpret. *)

Module re.

Definition is_digit (c : ascii) : bool :=
  let n := nat_of_ascii c in ((48 <=? n) && (n <=? 57))%nat.

Definition is_alpha (c : ascii) : bool :=
  let n := nat_of_ascii c in
  (((65 <=? n) && (n <=? 90)) || ((97 <=? n) && (n <=? 122)))%nat.

(** The class [\w]. *)
Definition is_word (c : ascii) : bool :=
  is_digit c || is_alpha c || Ascii.eqb c "_".

(** [str.isidentifier], which group names must satisfy. *)
Definition isidentifier (name : string) : bool :=
  match name with
  | EmptyString => false
  | String c rest =>
      (is_alpha c || Ascii.eqb c "_")
      && forallb is_word (list_ascii_of_string rest)
  end.

Inductive tok :=
| Lit (c : ascii)
| Group (name : string).

Inductive compiled :=
| Compiled (toks : list tok)
| ReError (msg : string)   (* re.error *)
| Unsupported.

Definition cons_tok (t : tok) (c : compiled) : compiled :=
  match c with
  | Compiled toks => Compiled (t :: toks)
  | other => other
  end.

Fixpoint strip_prefix (pre s : string) : option string :=
  match pre with
  | EmptyString => Some s
  | String a pre' =>
      match s with
      | String b s' => if Ascii.eqb a b then strip_prefix pre' s' else None
      | EmptyString => None
      end
  end.

(** The text up to the next [>], and what follows it. *)
Fixpoint read_name (s : string) : option (string * string) :=
  match s with
  | EmptyString => None
  | String c s' =>
      if Ascii.eqb c ">" then Some (EmptyString, s')
      else match read_name s' with
           | Some (n, r) => Some (String c n, r)
           | None => None
           end
  end.

(** Characters with a meaning of their own in a pattern.  [{] is read
    apart: it is a literal unless a repetition count may follow. *)
Definition is_special (c : ascii) : bool :=
  existsb (Ascii.eqb c)
    (list_ascii_of_string ".^$*+?[\|()").

Fixpoint parse (fuel : nat) (p : string) (names : list string) : compiled :=
  match fuel with
  | O => Unsupported
  | S fuel' =>
      match p with
      | EmptyString => Compiled []
      | String c p' =>
          if Ascii.eqb c "(" then
            match strip_prefix "?P<" p' with
            | None => Unsupported
            | Some q =>
                match read_name q with
                | None => ReError "missing >, unterminated name"
                | Some (name, q') =>
                    if negb (isidentifier name) then
                      ReError "bad character in group name"
                    else if existsb (String.eqb name) names then
                      ReError "redefinition of group name"
                    else
                      match strip_prefix "\w+)" q' with
                      | None => Unsupported
                      | Some q'' =>
                          cons_tok (Group name) (parse fuel' q'' (name :: names))
                      end
                end
            end
          else if Ascii.eqb c "{" then
            match p' with
            | String d _ =>
                if is_digit d || Ascii.eqb d "," then Unsupported
                else cons_tok (Lit c) (parse fuel' p' names)
            | EmptyString => Compiled [Lit c]
            end
          else if is_special c then Unsupported
          else cons_tok (Lit c) (parse fuel' p' names)
      end
  end.

Definition compile (pattern : string) : compiled :=
  parse (S (String.length pattern)) pattern [].

(** The ways [\w+] can match at the head of [s]: every non-empty run of
    word characters there, the longest first (the group is greedy), each
    with the text that follows it. *)
Fixpoint word_splits (s : string) : list (string * string) :=
  match s with
  | EmptyString => []
  | String c s' =>
      if is_word c then
        map (fun wr => (String c (fst wr), snd wr)) (word_splits s')
          ++ [(String c EmptyString, s')]
      else []
  end.

(** Match [toks] at the head of [s], backtracking over the groups: the
    captured groups and the text after the match. *)
Fixpoint match_toks (toks : list tok) (s : string)
    : option (list (string * string) * string) :=
  match toks with
  | [] => Some ([], s)
  | Lit c :: ts =>
      match s with
      | String c' s' => if Ascii.eqb c c' then match_toks ts s' else None
      | EmptyString => None
      end
  | Group name :: ts =>
      (fix try (cands : list (string * string)) :=
         match cands with
         | [] => None
         | (w, rest) :: cands' =>
             match match_toks ts rest with
             | Some (groups, rest') => Some ((name, w) :: groups, rest')
             | None => try cands'
             end
         end) (word_splits s)
  end.

(** A match object: its span and [groupdict()]. *)
Record Match := {
  m_start : nat;
  m_end : nat;
  groupdict : list (string * string)
}.

(** [m.group(name)] of a group that took part in the match. *)
Definition group (m : Match) (name : string) : string :=
  match dict_get String.eqb (groupdict m) name with
  | Some v => v
  | None => EmptyString
  end.

Inductive outcome :=
| Matched (m : Match)
| NoMatch                 (* re.match returns None *)
| Error (msg : string)    (* re.error at compilation *)
| NotInterpreted.         (* pattern outside the language above *)

(** [re.match(pattern, s)]: the match is anchored at the start of [s]
    only. *)
Definition match_ (pattern s : string) : outcome :=
  match compile pattern with
  | Compiled toks =>
      match match_toks toks s with
      | Some (groups, rest) =>
          Matched {| m_start := 0;
                     m_end := String.length s - String.length rest;
                     groupdict := groups |}
      | None => NoMatch
      end
  | ReError msg => Error msg
  | Unsupported => NotInterpreted
  end.

(** The leftmost non-overlapping matches of [toks] in [s], scanning from
    offset [pos]; [skip] characters belong to the previous match.  Exact
    for a pattern that matches no empty text. *)
Fixpoint scan (toks : list tok) (s : string) (pos skip : nat) : list Match :=
  match s with
  | EmptyString => []
  | String _ s' =>
      match skip with
      | S k => scan toks s' (S pos) k
      | O =>
          match match_toks toks s with
          | Some (groups, rest) =>
              let n := String.length s - String.length rest in
              {| m_start := pos; m_end := pos + n; groupdict := groups |}
                :: scan toks s' (S pos) (pred n)
          | None => scan toks s' (S pos) 0
          end
      end
  end.

(** [re.finditer(pattern, s)], for a pattern that compiles. *)
Definition finditer (pattern s : string) : list Match :=
  match compile pattern with
  | Compiled toks => scan toks s 0 0
  | _ => []
  end.

End re.

(** ** request.py *)

(** [yarl.URL], as far as the program reads it. *)
Record URL := { raw_path : string }.

Module request.

(** The [app] back-reference is left out: nothing below reads it. *)
Record Request := {
  _version : string;
  _method : string;
  _url : URL;
  _headers : list (string * string);
  _body : option string;
  _match_info : list (string * string)
}.

Section Init.
(** [yarl.URL(text)]. *)
Variable yarl_URL : string -> URL.

Definition __init__ (method url : string)
    (headers : list (string * string)) (version : string)
    (body : option string) : Request :=
  {| _version := version;
     _method := decode "utf-8" method;
     _url := yarl_URL (decode "utf-8" url);
     _headers := headers;
     _body := body;
     _match_info := [] |}.
End Init.

(** The [match_info] setter. *)
Definition set_match_info (self : Request)
    (match_info : list (string * string)) : Request :=
  {| _version := _version self; _method := _method self;
     _url := _url self; _headers := _headers self;
     _body := _body self; _match_info := match_info |}.

End request.

(** What a handler or a middleware returns: a [Response] (of any
    subclass), or an object of another type. *)
Inductive PyVal :=
| VResponse (r : Response)
| VOther (type_name : string).

Definition Handler := request.Request -> result PyVal.
Definition Middleware := request.Request -> Handler -> result PyVal.

(** ** router.py *)

(** What one pass through a loop body does next. *)
Inductive flow (R : Type) :=
| Next
| Return (v : R).
Arguments Next {R}.
Arguments Return {R} v.

(** [for x in xs: body], followed by [after]; the body may return from the
    enclosing function or raise. *)
Fixpoint for_items {X R : Type} (xs : list X) (body : X -> result (flow R))
    (after : result R) : result R :=
  match xs with
  | [] => after
  | x :: xs' =>
      f <- body x ;;
      match f with
      | Return v => Ok v
      | Next => for_items xs' body after
      end
  end.

Module router.

Definition _param_regex : string := "{(?P<param>\w+)}".

Record UrlDispatcher := {
  _routes : list ((string * string) * Handler)
}.

Definition __init__ : UrlDispatcher := {| _routes := [] |}.

Definition key_eqb (a b : string * string) : bool :=
  String.eqb (fst a) (fst b) && String.eqb (snd a) (snd b).

Definition _format_pattern (path : string) : string :=
  fst (fold_left
         (fun (st : string * nat) (m : re.Match) =>
            let (regex, last_pos) := st in
            let regex := (regex ++ slice path last_pos (re.m_start m))%string in
            let param := re.group m "param" in
            let regex := (regex ++ ("(?P<" ++ param ++ ">\w+)"))%string in
            (regex, re.m_end m))
         (re.finditer _param_regex path)
         (EmptyString, 0)).

Definition add_route (self : UrlDispatcher) (method path : string)
    (handler : Handler) : UrlDispatcher :=
  let pattern := _format_pattern path in
  {| _routes := dict_set key_eqb (_routes self) (method, pattern) handler |}.

Definition add_get := fun self => add_route self "GET".
Definition add_post := fun self => add_route self "POST".

Section Resolve.
(** [re.match(pattern, text)]: a match object, [None], or [re.error]. *)
Variable re_match : string -> string -> result (option re.Match).

Definition resolve (self : UrlDispatcher) (request : request.Request)
    : result (option (list (string * string) * Handler)) :=
  let path := raw_path (request._url request) in
  for_items (_routes self)
    (fun item =>
       let '((method, pattern), handler) := item in
       match_ <- re_match pattern path ;;
       match match_ with
       | None =>
           Raise (HTTPException
                    (exceptions.HTTPNotFound
                       (Some ("Could not find " ++ path)%string) None))
       | Some m =>
           if negb (String.eqb method (request._method request)) then
             Raise (HTTPException
                      (exceptions.HTTPNotFound
                         (Some (request._method request
                                  ++ " not allowed for " ++ path)%string)
                         None))
           else Ok (Return (Some (re.groupdict m, handler)))
       end)
    (Ok None).
End Resolve.

End router.

(** ** helpers.py *)

Module helpers.

(** [s.replace("\n", new)]. *)
Fixpoint replace_newlines (new s : string) : string :=
  match s with
  | EmptyString => EmptyString
  | String c s' =>
      if Ascii.eqb c (ascii_of_nat 10)
      then (new ++ replace_newlines new s')%string
      else String c (replace_newlines new s')
  end.

(** [server_exception_templ.format(exc=exc, traceback=traceback)]. *)
Definition server_exception_templ (exc traceback : string) : string :=
  (nl ++ "<div>" ++ nl
   ++ "    <h1>500 Internal server error</h1>" ++ nl
   ++ "    <span>Server got itself in trouble : <b>" ++ exc ++ "</b><span>" ++ nl
   ++ "    <p>" ++ traceback ++ "</p>" ++ nl
   ++ "</div>" ++ nl)%string.

Definition format_exception (exc : PyExc) : Response :=
  let resp := response.__init__ None (Some 500%Z) "text/html" None "1.1" in
  let trace := replace_newlines "</br>" (exc_traceback exc) in
  let msg := server_exception_templ (exc_str exc) trace in
  response.add_body resp msg.

End helpers.

(** ** application.py *)

(** [functools.partial(md, handler=handler)]. *)
Definition functools_partial (md : Middleware) (handler : Handler) : Handler :=
  fun request => md request handler.

Module application.

(** The event loop and the start-up and shut-down hook lists are left
    out: dispatch does not read them. *)
Record Application := {
  _router : router.UrlDispatcher;
  _middlewares : list Middleware
}.

Definition __init__ (middlewares : option (list Middleware)) : Application :=
  {| _router := router.__init__;
     _middlewares := match middlewares with None => [] | Some m => m end |}.

(** What the global name [partial] is bound to in the module
    [application.py] as it is written: line 4 imports [partialmethod]
    and [wraps] from [functools], and nothing binds [partial]. *)
Definition module_partial : option (Middleware -> Handler -> Handler) := None.

(** The [RuntimeError] of line 90. *)
Definition RuntimeError_not_response (type_name tb : string) : exn :=
  Exc {| exc_class := "RuntimeError";
         exc_str := "expect Response instance but got <class '"
                      ++ type_name ++ "'>";
         exc_traceback := tb |}.

Section Dispatch.
Variable re_match : string -> string -> result (option re.Match).
(** The binding of the global name [partial] when [_handler] runs;
    [None] when the name is not bound. *)
Variable partial : option (Middleware -> Handler -> Handler).
(** Traceback text of an exception the interpreter raises at a line of
    [_handler]. *)
Variable tb : nat -> string.
Context {W : Type}.

(** Lines 75-83: the body of the [try]. *)
Definition try_body (self : Application) (request : request.Request)
    : result PyVal :=
  resolved <- router.resolve re_match (_router self) request ;;
  (* match_info, handler = ... *)
  unpacked <- match resolved with
              | Some tup => Ok tup
              | None => Raise (TypeError_unpack (tb 75))
              end ;;
  let match_info := fst unpacked in
  let handler := snd unpacked in
  let request := request.set_match_info request match_info in
  handler <- match _middlewares self with
             | [] => Ok handler
             | mds =>
                 for_each mds
                   (fun handler md =>
                      match partial with
                      | Some p => Ok (p md handler)
                      | None => Raise (NameError "partial" (tb 81))
                      end)
                   handler
             end ;;
  handler request.

Definition _handler (self : Application) (request : request.Request)
    (response_writer : Response -> result W) : result W :=
  resp <- match try_body self request with
          | Ok resp => Ok resp
          | Raise (HTTPException exc) => Ok (VResponse exc)
          | Raise (Exc exc) => Ok (VResponse (helpers.format_exception exc))
          | Raise (BaseExc exc) => Raise (BaseExc exc)
          end ;;
  match resp with
  | VResponse r => response_writer r
  | VOther type_name =>
      Raise (RuntimeError_not_response type_name (tb 90))
  end.
End Dispatch.

End application.

(** ** The single-file copy, sketch.py

    Its [_handler] (lines 278-299) differs from the package's in the
    middleware step only. *)

Module sketch_py.

Section Dispatch.
Variable re_match : string -> string -> result (option re.Match).
Variable tb : nat -> string.
Context {W : Type}.

Definition try_body (self : application.Application)
    (request : request.Request) : result PyVal :=
  resolved <- router.resolve re_match (application._router self) request ;;
  unpacked <- match resolved with
              | Some tup => Ok tup
              | None => Raise (TypeError_unpack (tb 281))
              end ;;
  let match_info := fst unpacked in
  let handler := snd unpacked in
  let request := request.set_match_info request match_info in
  (* resp = None *)
  let resp := VOther "NoneType" in
  match application._middlewares self with
  | [] => handler request
  | mds => for_each mds (fun _ mwares => mwares request handler) resp
  end.

Definition _handler (self : application.Application)
    (request : request.Request)
    (response_writer : Response -> result W) : result W :=
  resp <- match try_body self request with
          | Ok resp => Ok resp
          | Raise (HTTPException exc) => Ok (VResponse exc)
          | Raise (Exc exc) => Ok (VResponse (helpers.format_exception exc))
          | Raise (BaseExc exc) => Raise (BaseExc exc)
          end ;;
  match resp with
  | VResponse r => response_writer r
  | VOther type_name =>
      Raise (application.RuntimeError_not_response type_name (tb 297))
  end.
End Dispatch.

End sketch_py.

(** ** server.py and http_parser.py: the connection adapter *)

(** The callbacks the [httptools] parser makes while it is fed; the
    completion event carries what [get_http_version()] and [get_method()]
    answer at that moment. *)
Inductive parser_event :=
| ev_url (url : string)
| ev_header (header value : string)
| ev_body (data : string)
| ev_message_complete (version method : string).

(** The [AttributeError] of calling a method of [None]. *)
Definition AttributeError_None (attr tb : string) : exn :=
  Exc {| exc_class := "AttributeError";
         exc_str := "'NoneType' object has no attribute '" ++ attr ++ "'";
         exc_traceback := tb |}.

Module server.

(** A [Server] object.  The parser it owns is represented by the chunks
    fed to it so far; a transport by its number; the scheduled task by
    the request it was created for. *)
Record Server := {
  _app : application.Application;
  _encoding : string;
  _url : option string;
  _request : option request.Request;
  _body : option string;
  _request_handler_task : option request.Request;
  _transport : option nat;
  _request_parser : list string;
  _headers : list (string * string)
}.

Definition __init__ (app : application.Application) : Server :=
  {| _app := app;
     _encoding := "utf-8";
     _url := None;
     _request := None;
     _body := None;
     _request_handler_task := None;
     _transport := None;
     _request_parser := [];
     _headers := [] |}.

Definition connection_made (self : Server) (transport : nat) : Server :=
  {| _app := _app self; _encoding := _encoding self; _url := _url self;
     _request := _request self; _body := _body self;
     _request_handler_task := _request_handler_task self;
     _transport := Some transport;
     _request_parser := _request_parser self; _headers := _headers self |}.

Definition connection_lost (self : Server) : Server :=
  {| _app := _app self; _encoding := _encoding self; _url := _url self;
     _request := _request self; _body := _body self;
     _request_handler_task := _request_handler_task self;
     _transport := None;
     _request_parser := _request_parser self; _headers := _headers self |}.

(** *** HttpParserMixin *)

Definition on_body (self : Server) (data : string) : Server :=
  {| _app := _app self; _encoding := _encoding self; _url := _url self;
     _request := _request self; _body := Some data;
     _request_handler_task := _request_handler_task self;
     _transport := _transport self;
     _request_parser := _request_parser self; _headers := _headers self |}.

Definition on_url (self : Server) (url : string) : Server :=
  {| _app := _app self; _encoding := _encoding self; _url := Some url;
     _request := _request self; _body := _body self;
     _request_handler_task := _request_handler_task self;
     _transport := _transport self;
     _request_parser := _request_parser self; _headers := _headers self |}.

Definition on_header (self : Server) (header value : string) : Server :=
  let header := decode (_encoding self) header in
  {| _app := _app self; _encoding := _encoding self; _url := _url self;
     _request := _request self; _body := _body self;
     _request_handler_task := _request_handler_task self;
     _transport := _transport self;
     _request_parser := _request_parser self;
     _headers := dict_set String.eqb (_headers self) header
                   (decode (_encoding self) value) |}.

Section Adapter.
(** [yarl.URL(text)]. *)
Variable yarl_URL : string -> URL.
(** The events [HttpRequestParser.feed_data] produces for a chunk,
    given the chunks fed before. *)
Variable parser_events : list string -> string -> list parser_event.
Variable tb : string.

Definition on_message_complete (self : Server) (version method : string)
    : result Server :=
  (* Request.__init__ calls url.decode *)
  url <- match _url self with
         | Some url => Ok url
         | None => Raise (AttributeError_None "decode" tb)
         end ;;
  let request :=
    request.__init__ yarl_URL method url (_headers self) version
      (_body self) in
  Ok {| _app := _app self; _encoding := _encoding self; _url := _url self;
        _request := Some request; _body := _body self;
        _request_handler_task := Some request;
        _transport := _transport self;
        _request_parser := _request_parser self;
        _headers := _headers self |}.

Definition callback (self : Server) (ev : parser_event) : result Server :=
  match ev with
  | ev_url url => Ok (on_url self url)
  | ev_header header value => Ok (on_header self header value)
  | ev_body data => Ok (on_body self data)
  | ev_message_complete version method =>
      on_message_complete self version method
  end.

Definition data_received (self : Server) (data : string) : result Server :=
  let events := parser_events (_request_parser self) data in
  let self :=
    {| _app := _app self; _encoding := _encoding self; _url := _url self;
       _request := _request self; _body := _body self;
       _request_handler_task := _request_handler_task self;
       _transport := _transport self;
       _request_parser := _request_parser self ++ [data];
       _headers := _headers self |} in
  for_each events callback self.
End Adapter.

Section Writer.
Variable web_responses : Z -> option (string * string).
Variable tb : string.

(** [response_writer]: what is written to which transport, before that
    transport is closed.  [self._transport.write] is looked up before its
    argument [str(response)] is evaluated, so without a transport the
    [AttributeError] comes first. *)
Definition response_writer (self : Server) (response : Response)
    : result (nat * string) :=
  match _transport self with
  | None => Raise (AttributeError_None "write" tb)
  | Some transport =>
      text <- response.__str__ web_responses tb response ;;
      Ok (transport, text)
  end.
End Writer.

End server.

(** ** Starting the server (application.py, lines 69-70 and 95-104) *)

(** The objects of the process: [Server] instances by address. *)
Definition Heap := list server.Server.

Definition alloc (s : server.Server) (h : Heap) : nat * Heap :=
  (length h, h ++ [s]).

Fixpoint heap_update (h : Heap) (a : nat) (f : server.Server -> server.Server)
    : Heap :=
  match h, a with
  | [], _ => []
  | s :: h', O => f s :: h'
  | s :: h', S a' => s :: heap_update h' a' f
  end.

(** A protocol factory: a callable that answers the address of a protocol
    object, and may create it. *)
Definition factory := Heap -> nat * Heap.

Module serve.

Definition _make_server (self : application.Application) : factory :=
  alloc (server.__init__ self).

(** [run_app] up to [create_server]: the heap after line 99 and the
    protocol factory [lambda: protocol] of line 103. *)
Definition run_app (app : application.Application) (h : Heap)
    : factory * Heap :=
  let (protocol, h) := _make_server app h in
  (fun h' => (protocol, h'), h).

(** What the event loop does with the factory for each connection it
    accepts: it calls the factory and hands the transport to the protocol
    it answers. *)
Definition accept (protocol_factory : factory) (transport : nat) (h : Heap)
    : nat * Heap :=
  let (protocol, h) := protocol_factory h in
  (protocol, heap_update h protocol (fun s => server.connection_made s transport)).

End serve.

(** ** Concrete instances used in the examples *)

(** [re.match] as the router calls it, by the engine of [Module re].  On a
    pattern the engine does not interpret the call is reported as raising
    too; every pattern used below is interpreted. *)
Definition py_re_match (pattern text : string) : result (option re.Match) :=
  match re.match_ pattern text with
  | re.Matched m => Ok (Some m)
  | re.NoMatch => Ok None
  | re.Error msg =>
      Raise (Exc {| exc_class := "re.error"; exc_str := msg;
                    exc_traceback := EmptyString |})
  | re.NotInterpreted =>
      Raise (Exc {| exc_class := "re.error";
                    exc_str := "pattern not interpreted";
                    exc_traceback := EmptyString |})
  end.

(** The entries of [http.server.BaseHTTPRequestHandler.responses] for the
    status codes the repository itself produces. *)
Definition http_responses (code : Z) : option (string * string) :=
  match code with
  | 200%Z => Some ("OK", "Request fulfilled, document follows")
  | 302%Z => Some ("Found", "Object moved temporarily -- see URI list")
  | 400%Z => Some ("Bad Request", "Bad request syntax or unsupported method")
  | 404%Z => Some ("Not Found", "Nothing matches the given URI")
  | 500%Z => Some ("Internal Server Error", "Server got itself in trouble")
  | _ => None
  end.

Definition no_tb : nat -> string := fun _ => EmptyString.

(** A [GET]-style request for a path. *)
Definition request_for (method path : string) : request.Request :=
  request.__init__ (fun text => {| raw_path := text |}) method path [] "1.1" None.

(** The handler of [example.py]. *)
Definition example_handler : Handler :=
  fun request =>
    match dict_get String.eqb (request._match_info request) "username" with
    | Some username =>
        Ok (VResponse (response.__init__ (Some ("Hello, " ++ username)%string)
                         (Some 200%Z) "text/plain" None "1.1"))
    | None =>
        Raise (Exc {| exc_class := "KeyError"; exc_str := "'username'";
                      exc_traceback := EmptyString |})
    end.

(** A handler that answers a fixed text. *)
Definition const_handler (text : string) : Handler :=
  fun _ =>
    Ok (VResponse (response.__init__ (Some text) (Some 200%Z) "text/plain"
                     None "1.1")).

(** A handler that calls [sys.exit()]. *)
Definition SystemExit : PyExc :=
  {| exc_class := "SystemExit"; exc_str := EmptyString;
     exc_traceback := EmptyString |}.

Definition exiting_handler : Handler := fun _ => Raise (BaseExc SystemExit).

(** A handler that raises [ValueError("boom")]. *)
Definition ValueError_boom : PyExc :=
  {| exc_class := "ValueError"; exc_str := "boom";
     exc_traceback := "Traceback (most recent call last):" ++ nl
                        ++ "ValueError: boom" ++ nl |}.

Definition failing_handler : Handler := fun _ => Raise (Exc ValueError_boom).

(** An order-tagging middleware: it calls the downstream handler and wraps
    the body of its response in [name(...)]. *)
Definition tag (name : string) : Middleware :=
  fun request handler =>
    resp <- handler request ;;
    match resp with
    | VResponse r =>
        Ok (VResponse
              (response.add_body r
                 (name ++ "("
                    ++ match _body r with Some b => b | None => EmptyString end
                    ++ ")")%string))
    | other => Ok other
    end.

(** An application with one [GET] route and the given middlewares. *)
Definition app_with (path : string) (handler : Handler)
    (middlewares : list Middleware) : application.Application :=
  {| application._router := router.add_route router.__init__ "GET" path handler;
     application._middlewares := middlewares |}.

(** The response writer of a test double: it answers the response it is
    given. *)
Definition capture : Response -> result Response := fun r => Ok r.

(** ASCII lower-casing, to say that two header names differ in case only. *)
Definition lower_char (c : ascii) : ascii :=
  let n := nat_of_ascii c in
  if ((65 <=? n) && (n <=? 90))%nat then ascii_of_nat (n + 32) else c.

Fixpoint lower (s : string) : string :=
  match s with
  | EmptyString => EmptyString
  | String c s' => String (lower_char c) (lower s')
  end.

(** [sub] occurs in [s]. *)
Definition occurs_in (sub s : string) : Prop :=
  exists pre post : string, s = (pre ++ sub ++ post)%string.

(** A text made of word characters only. *)
Definition all_word (name : string) : bool :=
  forallb re.is_word (list_ascii_of_string name).

(** A path without the character that opens a placeholder. *)
Definition no_open_brace (path : string) : bool :=
  forallb (fun c => negb (Ascii.eqb c "{")) (list_ascii_of_string path).

(** [resolve] raised a not-found error. *)
Definition not_found {A : Type} (r : result A) : Prop :=
  exists exc : Response,
    r = Raise (HTTPException exc) /\ _status exc = Some 404%Z.

(** A parser double that reports one request whose two [Host] headers are
    spelled differently. *)
Definition two_hosts_parser : list string -> string -> list parser_event :=
  fun _ _ =>
    [ ev_url "/";
      ev_header "Host" "a.example";
      ev_header "host" "b.example";
      ev_message_complete "1.1" "GET" ].

(** The header mapping of the request an adapter has built. *)
Definition request_headers (s : result server.Server)
    : option (list (string * string)) :=
  match s with
  | Ok s' =>
      match server._request s' with
      | Some request => Some (request._headers request)
      | None => None
      end
  | Raise _ => None
  end.

(** ** request.py: the body accessors (lines 39-46) *)

(** [Request.text()]: [None] when the request has no body. *)
Definition request_text (self : request.Request) : option string :=
  match request._body self with
  | Some body => Some (decode "utf-8" body)
  | None => None
  end.

Section RequestJson.
(** Parsed JSON values, and what the global name [json] is bound to when
    [Request.json] runs ([None] when it is not bound): its [loads]. *)
Variable Data : Type.
Variable json : option (string -> result Data).
Variable tb : string.

(** [Request.json()]. *)
Definition request_json (self : request.Request) : result (option Data) :=
  match request_text self with
  | Some text =>
      match json with
      | Some loads => value <- loads text ;; Ok (Some value)
      | None => Raise (NameError "json" tb)
      end
  | None => Ok None
  end.
End RequestJson.

(** ** response.py: [json_response] (lines 73-76) *)

(** The keyword arguments [Response.__init__] accepts, each given or not. *)
Record Kwargs := {
  kw_body : option (option string);
  kw_status : option (option Z);
  kw_content_type : option string;
  kw_headers : option (option (list (string * string)));
  kw_version : option string
}.

Definition no_kwargs : Kwargs :=
  {| kw_body := None; kw_status := None; kw_content_type := None;
     kw_headers := None; kw_version := None |}.

(** [Response] called with the keyword arguments: an argument that is not
    given takes the default of the signature. *)
Definition Response_of_kwargs (kwargs : Kwargs) : Response :=
  response.__init__
    (match kw_body kwargs with Some b => b | None => None end)
    (match kw_status kwargs with Some st => st | None => Some 200%Z end)
    (match kw_content_type kwargs with Some c => c | None => "text/plain" end)
    (match kw_headers kwargs with Some h => h | None => None end)
    (match kw_version kwargs with Some v => v | None => "1.1" end).

Section JsonResponse.
Variable Data : Type.
(** [json.dumps]. *)
Variable dumps : Data -> result string.

Definition json_response (data : Data) (kwargs : Kwargs) : result Response :=
  body <- dumps data ;;
  (* kwargs.update({"body": body, "content_type": "application/json"}) *)
  let kwargs :=
    {| kw_body := Some (Some body);
       kw_status := kw_status kwargs;
       kw_content_type := Some "application/json";
       kw_headers := kw_headers kwargs;
       kw_version := kw_version kwargs |} in
  Ok (Response_of_kwargs kwargs).
End JsonResponse.

(** ** More test doubles *)

(** A handler that returns nothing. *)
Definition none_handler : Handler := fun _ => Ok (VOther "NoneType").

(** [json.dumps] on integers. *)
Definition dumps_int (n : nat) : result string := Ok (str_of_nat n).

(** The text is empty or begins with a character outside [\w]. *)
Definition not_word_start (text : string) : bool :=
  match text with
  | EmptyString => true
  | String c _ => negb (re.is_word c)
  end.

(** No line break occurs in the text. *)
Definition no_newline (text : string) : bool :=
  forallb (fun c => negb (Ascii.eqb c (ascii_of_nat 10)))
    (list_ascii_of_string text).

(** The header events of a list of (name, value) pairs, in order. *)
Definition header_events (headers : list (string * string))
    : list parser_event :=
  map (fun hv => ev_header (fst hv) (snd hv)) headers.

(** The body event, when the message has a body. *)
Definition body_events (body : option string) : list parser_event :=
  match body with
  | Some data => [ev_body data]
  | None => []
  end.

(** * Properties *)

(** ** Dictionaries *)

Lemma dict_get_set_same (d : list (string * string)) (k v : string) :
  dict_get String.eqb (dict_set String.eqb d k v) k = Some v.
Proof.
  induction d as [|[k' v'] d IH]; simpl.
  - now rewrite String.eqb_refl.
  - destruct (String.eqb k' k) eqn:E; simpl; rewrite E; auto.
Qed.

Lemma dict_get_set_other (d : list (string * string)) (k k' v : string) :
  k <> k' ->
  dict_get String.eqb (dict_set String.eqb d k v) k'
  = dict_get String.eqb d k'.
Proof.
  intros Hne. induction d as [|[k0 v0] d IH]; simpl.
  - destruct (String.eqb k k') eqn:E; auto.
    apply String.eqb_eq in E. contradiction.
  - destruct (String.eqb k0 k) eqn:E; simpl.
    + apply String.eqb_eq in E. subst k0.
      destruct (String.eqb k k') eqn:E'; auto.
      apply String.eqb_eq in E'. contradiction.
    + now rewrite IH.
Qed.

(** ** The router's regular expressions *)

Lemma compile_param_regex :
  re.compile router._param_regex
  = re.Compiled [re.Lit "{"; re.Group "param"; re.Lit "}"].
Proof. reflexivity. Qed.

(** The empty pattern compiles to no token, and matches the empty text at
    the start of every string. *)
Lemma match_empty_pattern (text : string) :
  re.match_ EmptyString text
  = re.Matched {| re.m_start := 0; re.m_end := 0; re.groupdict := [] |}.
Proof.
  unfold re.match_. simpl. now rewrite Nat.sub_diag.
Qed.

(** No placeholder is found in a text without an opening brace. *)
Lemma scan_no_open_brace (path : string) (pos skip : nat) :
  no_open_brace path = true ->
  re.scan [re.Lit "{"; re.Group "param"; re.Lit "}"] path pos skip = [].
Proof.
  revert pos skip.
  induction path as [|c path IH]; intros pos skip H; [reflexivity|].
  unfold no_open_brace in H. cbn [list_ascii_of_string forallb] in H.
  apply andb_true_iff in H. destruct H as [Hc Hrest].
  apply negb_true_iff in Hc. rewrite Ascii.eqb_sym in Hc.
  cbn [re.scan]. destruct skip as [|k].
  - cbn [re.match_toks]. rewrite Hc. now apply IH.
  - now apply IH.
Qed.

Lemma finditer_no_open_brace (path : string) :
  no_open_brace path = true ->
  re.finditer router._param_regex path = [].
Proof.
  intros H. unfold re.finditer. rewrite compile_param_regex.
  now apply scan_no_open_brace.
Qed.

Lemma append_assoc (a b c : string) :
  ((a ++ b) ++ c = a ++ (b ++ c))%string.
Proof. induction a; simpl; [reflexivity | now rewrite IHa]. Qed.

Lemma length_append (a b : string) :
  String.length (a ++ b) = String.length a + String.length b.
Proof. induction a; simpl; auto. Qed.

Lemma substring_prefix (a b : string) :
  substring 0 (String.length a) (a ++ b) = a.
Proof.
  induction a as [|c a IH]; simpl.
  - destruct b; reflexivity.
  - now rewrite IH.
Qed.

(** The characters of a match are skipped by the scan. *)
Lemma scan_skip (toks : list re.tok) (a b : string) (pos : nat) :
  re.scan toks (a ++ b) pos (String.length a)
  = re.scan toks b (pos + String.length a) 0.
Proof.
  revert pos. induction a as [|c a IH]; intros pos; simpl.
  - now rewrite Nat.add_0_r.
  - rewrite IH. f_equal. lia.
Qed.

Lemma scan_brace_free_prefix (lit s : string) (pos : nat) :
  no_open_brace lit = true ->
  re.scan [re.Lit "{"; re.Group "param"; re.Lit "}"] (lit ++ s) pos 0
  = re.scan [re.Lit "{"; re.Group "param"; re.Lit "}"] s
      (pos + String.length lit) 0.
Proof.
  revert pos. induction lit as [|c lit IH]; intros pos H.
  - simpl. now rewrite Nat.add_0_r.
  - unfold no_open_brace in H. cbn [list_ascii_of_string forallb] in H.
    apply andb_true_iff in H. destruct H as [Hc Hrest].
    apply negb_true_iff in Hc. rewrite Ascii.eqb_sym in Hc.
    cbn [append re.scan re.match_toks]. rewrite Hc.
    rewrite IH by exact Hrest. cbn [String.length]. f_equal. lia.
Qed.

(** The greedy group first tries the whole run of word characters. *)
Lemma word_splits_longest (name : string) (c : ascii) (t : string) :
  name <> EmptyString ->
  all_word name = true ->
  re.is_word c = false ->
  exists others,
    re.word_splits (name ++ String c t) = (name, String c t) :: others.
Proof.
  intros Hne Hw Hc. induction name as [|a name IH]; [contradiction|].
  unfold all_word in Hw. cbn [list_ascii_of_string forallb] in Hw.
  apply andb_true_iff in Hw. destruct Hw as [Ha Hw].
  cbn [append re.word_splits]. rewrite Ha.
  destruct name as [|b name].
  - cbn [append re.word_splits]. rewrite Hc. simpl. eexists. reflexivity.
  - destruct IH as [others E]; [discriminate | exact Hw |].
    rewrite E. simpl. eexists. reflexivity.
Qed.

(** [_param_regex] matches a placeholder and captures its name. *)
Lemma match_placeholder (name t : string) :
  name <> EmptyString ->
  all_word name = true ->
  re.match_toks [re.Lit "{"; re.Group "param"; re.Lit "}"]
    ("{" ++ name ++ "}" ++ t)
  = Some ([("param", name)], t).
Proof.
  intros Hne Hw.
  destruct (word_splits_longest name "}" t Hne Hw eq_refl) as [others E].
  cbn [append re.match_toks]. rewrite Ascii.eqb_refl.
  rewrite E. cbn. reflexivity.
Qed.

(** X7.  A path with one placeholder: the text before the placeholder is kept,
    the placeholder becomes the named group, and the text after it is
    left out of the compiled pattern. *)
Lemma format_pattern_one_placeholder (lit name tail : string) :
  no_open_brace lit = true ->
  name <> EmptyString ->
  all_word name = true ->
  no_open_brace tail = true ->
  router._format_pattern (lit ++ "{" ++ name ++ "}" ++ tail)
  = (lit ++ "(?P<" ++ name ++ ">\w+)")%string.
Proof.
  intros Hlit Hne Hw Htail.
  unfold router._format_pattern, re.finditer.
  rewrite compile_param_regex.
  rewrite scan_brace_free_prefix by exact Hlit.
  cbn [Nat.add].
  change ("{" ++ name ++ "}" ++ tail)%string
    with (String "{" (name ++ "}" ++ tail))%string.
  cbn [re.scan].
  change (String "{" (name ++ "}" ++ tail))%string
    with ("{" ++ name ++ "}" ++ tail)%string.
  rewrite (match_placeholder name tail Hne Hw).
  assert (Hn : Init.Nat.pred
                 (String.length ("{" ++ name ++ "}" ++ tail)
                  - String.length tail)
               = String.length (name ++ "}")).
  { cbn [append String.length]. rewrite !length_append.
    cbn [String.length]. lia. }
  rewrite Hn.
  replace (name ++ "}" ++ tail)%string with ((name ++ "}") ++ tail)%string
    by apply append_assoc.
  rewrite scan_skip.
  rewrite scan_no_open_brace by exact Htail.
  cbn [fold_left fst re.m_start re.m_end].
  unfold re.group. cbn [re.groupdict dict_get]. rewrite String.eqb_refl.
  unfold slice. rewrite Nat.sub_0_r, substring_prefix. reflexivity.
Qed.

(** The part of [_format_pattern] that works: a placeholder becomes a
    named group, and the text before it is kept. *)
Lemma format_pattern_username :
  router._format_pattern "/{username}" = "/(?P<username>\w+)".
Proof. reflexivity. Qed.

(** The text after the last placeholder is not copied. *)
Lemma format_pattern_tail_dropped :
  router._format_pattern "/users/{id}/posts" = "/users/(?P<id>\w+)".
Proof. reflexivity. Qed.

(** C1 (code at the failing input).  [_format_pattern] copies the text
    before each placeholder and stops after the last one: the text that
    follows the last placeholder is never appended.  For a path with no
    placeholder nothing is copied at all, so the compiled pattern is the
    empty pattern, and it matches at the start of every request path, not
    only the literal path. *)
Theorem format_pattern_placeholder_free (path : string) :
  no_open_brace path = true ->
  router._format_pattern path = EmptyString
  /\ forall text : string,
       re.match_ (router._format_pattern path) text
       = re.Matched {| re.m_start := 0; re.m_end := 0; re.groupdict := [] |}.
Proof.
  intros H.
  assert (E : router._format_pattern path = EmptyString).
  { unfold router._format_pattern.
    now rewrite (finditer_no_open_brace path H). }
  split; [exact E|].
  intros text. rewrite E. apply match_empty_pattern.
Qed.

Lemma format_pattern_placeholder_free_witness :
  router._format_pattern "/foo" = EmptyString
  /\ forall text : string,
       re.match_ (router._format_pattern "/foo") text
       = re.Matched {| re.m_start := 0; re.m_end := 0; re.groupdict := [] |}.
Proof.
  apply (format_pattern_placeholder_free "/foo"). reflexivity.
Defined.

(** ** Resolution *)

Section ResolveFacts.
Variable re_match : string -> string -> result (option re.Match).

(** An empty route table: the loop body never runs and the function
    falls off its end. *)
Lemma resolve_empty (self : router.UrlDispatcher) (request : request.Request) :
  router._routes self = [] ->
  router.resolve re_match self request = Ok None.
Proof.
  intros H. unfold router.resolve. now rewrite H.
Qed.

(** X1.  Every branch of the loop body leaves the function, so the first
    entry decides and the entries after it are not read: resolution
    against a table gives what it gives against the table cut down to its
    first entry. *)
Lemma resolve_first_entry_decides (key : string * string) (handler : Handler)
    (rest : list ((string * string) * Handler)) (request : request.Request) :
  router.resolve re_match {| router._routes := (key, handler) :: rest |} request
  = router.resolve re_match {| router._routes := [(key, handler)] |} request.
Proof.
  unfold router.resolve. simpl. destruct key as [method pattern].
  destruct (re_match pattern (raw_path (request._url request))) as [[m|]|e];
    simpl; auto.
  destruct (negb (String.eqb method (request._method request))); reflexivity.
Qed.

(** When the first entry's pattern does not match, resolution raises the
    not-found error that names the path, whatever the later entries. *)
Lemma resolve_first_no_match (method pattern : string) (handler : Handler)
    (rest : list ((string * string) * Handler)) (request : request.Request) :
  re_match pattern (raw_path (request._url request)) = Ok None ->
  router.resolve re_match
    {| router._routes := ((method, pattern), handler) :: rest |} request
  = Raise (HTTPException
             (exceptions.HTTPNotFound
                (Some ("Could not find "
                         ++ raw_path (request._url request))%string) None)).
Proof.
  intros H. unfold router.resolve. simpl. now rewrite H.
Qed.
End ResolveFacts.

(** C2 (code at the failing input).  After registering [/foo] and then
    [/{x}] for GET, the first entry of the route table carries the empty
    pattern that [_format_pattern] makes of [/foo]; it matches [/bar], so a
    GET request for [/bar] resolves to the handler of [/foo] with an empty
    parameter map, and no not-found error is raised. *)
Theorem resolve_foo_then_x_bar (h_foo h_x : Handler) :
  let table :=
    router.add_route (router.add_route router.__init__ "GET" "/foo" h_foo)
      "GET" "/{x}" h_x in
  map fst (router._routes table) = [("GET", ""); ("GET", "/(?P<x>\w+)")]
  /\ router.resolve py_re_match table (request_for "GET" "/bar")
     = Ok (Some ([], h_foo)).
Proof. split; reflexivity. Qed.

(** C3 (counterexample).  With [/{username}] registered for GET, a GET
    request for [/alice/extra] is not refused: it resolves. *)
Lemma resolve_alice_extra_matches :
  ~ not_found
      (router.resolve py_re_match
         (router.add_route router.__init__ "GET" "/{username}" example_handler)
         (request_for "GET" "/alice/extra")).
Proof.
  intros [exc [H _]]. vm_compute in H. discriminate H.
Qed.

(** C3 (amended).  With the single pattern [/{username}] registered for
    GET, a GET request for [/alice] resolves to the handler with the
    parameter map [{"username": "alice"}], and so does a GET request for
    [/alice/extra]: the pattern is matched at the start of the path, not
    against the whole path. *)
Theorem resolve_username_prefix (handler : Handler) :
  let table := router.add_route router.__init__ "GET" "/{username}" handler in
  router.resolve py_re_match table (request_for "GET" "/alice")
  = Ok (Some ([("username", "alice")], handler))
  /\ router.resolve py_re_match table (request_for "GET" "/alice/extra")
     = Ok (Some ([("username", "alice")], handler)).
Proof. split; reflexivity. Qed.

(** ** Dispatch *)

Lemma occurs_in_here (sub b : string) : occurs_in sub (sub ++ b)%string.
Proof. exists EmptyString, b. reflexivity. Qed.

Lemma occurs_in_append_l (sub a s : string) :
  occurs_in sub s -> occurs_in sub (a ++ s)%string.
Proof.
  intros [pre [post E]]. exists (a ++ pre)%string, post.
  rewrite E. now rewrite append_assoc.
Qed.

Ltac find_occurrence :=
  repeat first [apply occurs_in_here | apply occurs_in_append_l].

(** The 500 page of [format_exception]. *)
Lemma format_exception_page (exc : PyExc) :
  let resp := helpers.format_exception exc in
  _status resp = Some 500%Z
  /\ _content_type resp = "text/html"
  /\ exists body : string,
       _body resp = Some body
       /\ occurs_in (exc_str exc) body
       /\ occurs_in (helpers.replace_newlines "</br>" (exc_traceback exc)) body.
Proof.
  simpl. repeat split.
  eexists. split; [reflexivity|].
  unfold helpers.server_exception_templ. split; find_occurrence.
Qed.

(** C4 (counterexample).  A handler that raises [SystemExit], which is an
    exception outside the class [Exception], is caught by neither
    [except] clause: the exception leaves [_handler] and no response is
    written. *)
Lemma handler_SystemExit_escapes :
  application._handler py_re_match application.module_partial no_tb
    (app_with "/{username}" exiting_handler [])
    (request_for "GET" "/alice") capture
  = Raise (BaseExc SystemExit).
Proof. reflexivity. Qed.

(** C4 (amended).  Whatever exception of the class [Exception] the body of
    the [try] raises (route resolution, the middleware step or the
    handler), [_handler] catches it and hands a response to the response
    writer: an [HTTPException] value is that response, and any other
    [Exception] becomes the page of [format_exception], with status 500,
    content type [text/html] and a body in which [str(exc)] and the
    formatted trace occur.  An exception outside [Exception] is not
    caught. *)
Theorem handler_exception_boundary
    (re_match : string -> string -> result (option re.Match))
    (partial : option (Middleware -> Handler -> Handler))
    (tb : nat -> string) (W : Type)
    (self : application.Application) (request : request.Request)
    (response_writer : Response -> result W) (e : exn) :
  application.try_body re_match partial tb self request = Raise e ->
  match e with
  | HTTPException exc =>
      application._handler re_match partial tb self request response_writer
      = response_writer exc
  | Exc exc =>
      let resp := helpers.format_exception exc in
      application._handler re_match partial tb self request response_writer
      = response_writer resp
      /\ _status resp = Some 500%Z
      /\ _content_type resp = "text/html"
      /\ exists body : string,
           _body resp = Some body
           /\ occurs_in (exc_str exc) body
           /\ occurs_in
                (helpers.replace_newlines "</br>" (exc_traceback exc)) body
  | BaseExc exc =>
      application._handler re_match partial tb self request response_writer
      = Raise (BaseExc exc)
  end.
Proof.
  intros H. unfold application._handler. rewrite H.
  destruct e as [exc|exc|exc]; try reflexivity.
  split; [reflexivity|]. apply format_exception_page.
Qed.

Lemma handler_exception_boundary_witness :
  let resp := helpers.format_exception ValueError_boom in
  application._handler py_re_match application.module_partial no_tb
    (app_with "/{username}" failing_handler [])
    (request_for "GET" "/alice") capture
  = capture resp
  /\ _status resp = Some 500%Z
  /\ _content_type resp = "text/html"
  /\ exists body : string,
       _body resp = Some body
       /\ occurs_in (exc_str ValueError_boom) body
       /\ occurs_in
            (helpers.replace_newlines "</br>" (exc_traceback ValueError_boom))
            body.
Proof.
  apply (handler_exception_boundary py_re_match application.module_partial
           no_tb Response (app_with "/{username}" failing_handler [])
           (request_for "GET" "/alice") capture (Exc ValueError_boom)).
  reflexivity.
Defined.

(** A routing failure is an [HTTPException] and so is answered as it is:
    a request whose path the first entry does not match gets the 404. *)
Lemma handler_not_found_is_response :
  application._handler py_re_match application.module_partial no_tb
    (app_with "/x/{username}" example_handler [])
    (request_for "GET" "/alice") capture
  = Ok (exceptions.HTTPNotFound (Some "Could not find /alice") None).
Proof. reflexivity. Qed.

(** X15.  An object that is not a [Response] is refused after the [try]
    statement, outside both [except] clauses: that [RuntimeError] leaves
    [_handler]. *)
Lemma handler_non_response_raises
    (re_match : string -> string -> result (option re.Match))
    (partial : option (Middleware -> Handler -> Handler))
    (tb : nat -> string) (W : Type)
    (self : application.Application) (request : request.Request)
    (response_writer : Response -> result W) (type_name : string) :
  application.try_body re_match partial tb self request
  = Ok (VOther type_name) ->
  application._handler re_match partial tb self request response_writer
  = Raise (application.RuntimeError_not_response type_name (tb 90)).
Proof.
  intros H. unfold application._handler. now rewrite H.
Qed.

(** ** Middlewares *)

(** The loop of lines 80-81 when [partial] is [functools.partial]: the
    handler is wrapped by each middleware in turn, so a middleware later
    in the list ends further out. *)
Lemma wrap_loop (mds : list Middleware) (handler : Handler) :
  for_each mds
    (fun handler md => Ok (functools_partial md handler)) handler
  = Ok (fold_left (fun handler md => functools_partial md handler) mds handler).
Proof.
  revert handler. induction mds as [|md mds IH]; intros handler; simpl; auto.
Qed.

(** With [partial] bound to [functools.partial], the body of the [try]
    runs the chain the loop builds, for any list of middlewares. *)
Lemma try_body_chain
    (re_match : string -> string -> result (option re.Match))
    (tb : nat -> string)
    (self : application.Application) (request : request.Request)
    (match_info : list (string * string)) (handler : Handler) :
  router.resolve re_match (application._router self) request
  = Ok (Some (match_info, handler)) ->
  application.try_body re_match (Some functools_partial) tb self request
  = fold_left (fun handler md => functools_partial md handler)
      (application._middlewares self) handler
      (request.set_match_info request match_info).
Proof.
  intros Hres. unfold application.try_body. rewrite Hres.
  cbn -[for_each fold_left].
  destruct (application._middlewares self) as [|md mds] eqn:E; [reflexivity|].
  rewrite (wrap_loop (md :: mds) handler). reflexivity.
Qed.

(** X16.  In the package as it is written the name [partial] is not bound, and
    the first pass of the loop raises [NameError]: with any middleware
    registered, a request that resolves is answered by the 500 page. *)
Lemma handler_middlewares_NameError
    (re_match : string -> string -> result (option re.Match))
    (tb : nat -> string) (W : Type)
    (self : application.Application) (request : request.Request)
    (response_writer : Response -> result W)
    (found : list (string * string) * Handler) :
  router.resolve re_match (application._router self) request = Ok (Some found) ->
  application._middlewares self <> [] ->
  application.try_body re_match application.module_partial tb self request
  = Raise (NameError "partial" (tb 81)).
Proof.
  intros Hres Hmds. unfold application.try_body. rewrite Hres. simpl.
  destruct (application._middlewares self) as [|md mds]; [contradiction|].
  reflexivity.
Qed.

(** C5 (code at the failing input).  For an application with the
    middleware list [[A; B]], dispatch in the package as it is written
    invokes neither [A], nor [B], nor the registered handler: the first
    pass of the loop reads the name [partial], which [application.py]
    never binds, the [NameError] is caught by the generic clause, and the
    response handed to the writer is the 500 page of [format_exception]
    for that error, for every request that resolves. *)
Theorem middleware_list_NameError_page
    (re_match : string -> string -> result (option re.Match))
    (tb : nat -> string) (W : Type)
    (self : application.Application) (request : request.Request)
    (response_writer : Response -> result W)
    (match_info : list (string * string)) (handler : Handler)
    (A B : Middleware) :
  router.resolve re_match (application._router self) request
  = Ok (Some (match_info, handler)) ->
  application._middlewares self = [A; B] ->
  let exc :=
    {| exc_class := "NameError";
       exc_str := "name 'partial' is not defined";
       exc_traceback := tb 81 |} in
  application.try_body re_match application.module_partial tb self request
  = Raise (Exc exc)
  /\ application._handler re_match application.module_partial tb self
       request response_writer
     = response_writer (helpers.format_exception exc)
  /\ _status (helpers.format_exception exc) = Some 500%Z
  /\ _body (helpers.format_exception exc)
     = Some (helpers.server_exception_templ "name 'partial' is not defined"
               (helpers.replace_newlines "</br>" (tb 81))).
Proof.
  intros Hres Hmds exc.
  assert (E : application.try_body re_match application.module_partial tb
                self request = Raise (Exc exc)).
  { unfold application.try_body. rewrite Hres, Hmds. reflexivity. }
  split; [exact E|]. split; [|split; reflexivity].
  unfold application._handler. rewrite E. reflexivity.
Qed.

Lemma middleware_list_NameError_page_witness :
  let exc :=
    {| exc_class := "NameError";
       exc_str := "name 'partial' is not defined";
       exc_traceback := no_tb 81 |} in
  application.try_body py_re_match application.module_partial no_tb
    (app_with "/{username}" example_handler [tag "A"; tag "B"])
    (request_for "GET" "/alice")
  = Raise (Exc exc)
  /\ application._handler py_re_match application.module_partial no_tb
       (app_with "/{username}" example_handler [tag "A"; tag "B"])
       (request_for "GET" "/alice") capture
     = capture (helpers.format_exception exc)
  /\ _status (helpers.format_exception exc) = Some 500%Z
  /\ _body (helpers.format_exception exc)
     = Some (helpers.server_exception_templ "name 'partial' is not defined"
               (helpers.replace_newlines "</br>" (no_tb 81))).
Proof.
  apply (middleware_list_NameError_page py_re_match no_tb Response
           (app_with "/{username}" example_handler [tag "A"; tag "B"])
           (request_for "GET" "/alice") capture
           [("username", "alice")] example_handler (tag "A") (tag "B"));
    reflexivity.
Defined.

(** The order-tagged run.  With the middlewares [A] then [B] around the
    handler of [example.py], the chain of [A] wrapping [B] wrapping the
    handler would answer a body tagged [A(B(Hello, alice))].  No version
    of the dispatch answers that: not the package as written, not the
    package with [partial] bound to [functools.partial], not the
    single-file copy. *)
Lemma middleware_order_not_first_outermost :
  let app := app_with "/{username}" example_handler [tag "A"; tag "B"] in
  let request := request_for "GET" "/alice" in
  let claimed :=
    response.__init__ (Some "A(B(Hello, alice))") (Some 200%Z) "text/plain"
      None "1.1" in
  functools_partial (tag "A") (functools_partial (tag "B") example_handler)
    (request.set_match_info request [("username", "alice")])
  = Ok (VResponse claimed)
  /\ application._handler py_re_match application.module_partial no_tb
       app request capture <> Ok claimed
  /\ application._handler py_re_match (Some functools_partial) no_tb
       app request capture <> Ok claimed
  /\ sketch_py._handler py_re_match no_tb app request capture <> Ok claimed.
Proof.
  cbv zeta. split; [reflexivity|].
  repeat split; intros H; vm_compute in H; discriminate H.
Qed.

(** Where the name [partial] is bound to [functools.partial], the loop of
    lines 80-81 leaves the last middleware outermost: the order-tagged
    body is [B(A(Hello, alice))]. *)
Lemma middleware_tags_B_outermost :
  application._handler py_re_match (Some functools_partial) no_tb
    (app_with "/{username}" example_handler [tag "A"; tag "B"])
    (request_for "GET" "/alice") capture
  = Ok (response.__init__ (Some "B(A(Hello, alice))") (Some 200%Z)
          "text/plain" None "1.1").
Proof. reflexivity. Qed.

(** ** An empty route table *)

(** C10.  When the route table is empty, [resolve] returns [None] and
    raises nothing; unpacking that [None] on line 75 raises a [TypeError]
    inside the [try], which the generic clause turns into the page of
    [format_exception] for that error: the response handed to the writer
    is that page, with status 500, not 404, content type [text/html], and
    the error's text and trace in its body. *)
Theorem handler_empty_table
    (re_match : string -> string -> result (option re.Match))
    (partial : option (Middleware -> Handler -> Handler))
    (tb : nat -> string) (W : Type)
    (self : application.Application) (request : request.Request)
    (response_writer : Response -> result W) :
  router._routes (application._router self) = [] ->
  let exc :=
    {| exc_class := "TypeError";
       exc_str := "cannot unpack non-iterable NoneType object";
       exc_traceback := tb 75 |} in
  let resp := helpers.format_exception exc in
  router.resolve re_match (application._router self) request = Ok None
  /\ application.try_body re_match partial tb self request = Raise (Exc exc)
  /\ application._handler re_match partial tb self request response_writer
     = response_writer resp
  /\ _status resp = Some 500%Z
  /\ _status resp <> Some 404%Z
  /\ _content_type resp = "text/html"
  /\ _body resp
     = Some (helpers.server_exception_templ
               "cannot unpack non-iterable NoneType object"
               (helpers.replace_newlines "</br>" (tb 75))).
Proof.
  intros H exc resp.
  assert (E : router.resolve re_match (application._router self) request
              = Ok None) by now apply resolve_empty.
  assert (T : application.try_body re_match partial tb self request
              = Raise (Exc exc)).
  { unfold application.try_body. rewrite E. reflexivity. }
  split; [exact E|]. split; [exact T|]. split.
  - unfold application._handler. rewrite T. reflexivity.
  - repeat split. discriminate.
Qed.

Lemma handler_empty_table_witness :
  let exc :=
    {| exc_class := "TypeError";
       exc_str := "cannot unpack non-iterable NoneType object";
       exc_traceback := no_tb 75 |} in
  let resp := helpers.format_exception exc in
  router.resolve py_re_match
    (application._router (application.__init__ None))
    (request_for "GET" "/alice") = Ok None
  /\ application.try_body py_re_match application.module_partial no_tb
       (application.__init__ None) (request_for "GET" "/alice")
     = Raise (Exc exc)
  /\ application._handler py_re_match application.module_partial no_tb
       (application.__init__ None) (request_for "GET" "/alice") capture
     = capture resp
  /\ _status resp = Some 500%Z
  /\ _status resp <> Some 404%Z
  /\ _content_type resp = "text/html"
  /\ _body resp
     = Some (helpers.server_exception_templ
               "cannot unpack non-iterable NoneType object"
               (helpers.replace_newlines "</br>" (no_tb 75))).
Proof.
  apply (handler_empty_table py_re_match application.module_partial no_tb
           Response (application.__init__ None)
           (request_for "GET" "/alice") capture).
  reflexivity.
Defined.

(** ** Serialization *)

(** X8.  The wire text of a response whose status is in the phrase table and
    whose body is present: the status line, [Content-Type],
    [Content-Length] with [len(body)], [Connection: close], the user's
    headers in insertion order, an empty line, the body. *)
Lemma str_with_body (web_responses : Z -> option (string * string))
    (tb : string) (r : Response) (code : Z) (phrase description body : string) :
  _status r = Some code ->
  web_responses code = Some (phrase, description) ->
  _body r = Some body ->
  response.__str__ web_responses tb r
  = Ok (join nl
          ([ ("HTTP/" ++ _version r ++ " " ++ str_of_Z code ++ " " ++ phrase)%string;
             ("Content-Type: " ++ _content_type r)%string;
             ("Content-Length: " ++ str_of_nat (String.length body))%string;
             "Connection: close" ]
           ++ map (fun hv => (fst hv ++ ": " ++ snd hv)%string) (_headers r)
           ++ [(nl ++ body)%string])).
Proof.
  intros Hs Hw Hb. unfold response.__str__, response.lookup_status.
  rewrite Hs, Hw, Hb. simpl.
  destruct (_headers r) as [|h hs]; reflexivity.
Qed.

(** C6 (code at the failing input).  The response of the claim's example
    (status 200, body [hello], content type [text/plain]) is serialized as
    the claim says.  A response with no body is not: [Response()], whose
    body is [None], makes [__str__] raise the [TypeError] of [len(None)]
    while the list of header lines is built, before the test
    [self._body is not None] is reached, so no wire text is produced. *)
Theorem str_hello_and_no_body (tb : string) :
  response.__str__ http_responses tb
    (response.__init__ (Some "hello") (Some 200%Z) "text/plain" None "1.1")
  = Ok ("HTTP/1.1 200 OK" ++ nl
        ++ "Content-Type: text/plain" ++ nl
        ++ "Content-Length: 5" ++ nl
        ++ "Connection: close" ++ nl
        ++ nl
        ++ "hello")%string
  /\ response.__str__ http_responses tb
       (response.__init__ None (Some 200%Z) "text/plain" None "1.1")
     = Raise (TypeError_len tb).
Proof. split; reflexivity. Qed.

(** The user's headers follow the three fixed ones, in insertion order. *)
Lemma str_user_headers (tb : string) :
  response.__str__ http_responses tb
    (response.add_header
       (response.add_header
          (response.__init__ (Some "hello") (Some 200%Z) "text/plain" None "1.1")
          "X-B" "1")
       "X-A" "2")
  = Ok ("HTTP/1.1 200 OK" ++ nl
        ++ "Content-Type: text/plain" ++ nl
        ++ "Content-Length: 5" ++ nl
        ++ "Connection: close" ++ nl
        ++ "X-B: 1" ++ nl
        ++ "X-A: 2" ++ nl
        ++ nl
        ++ "hello")%string.
Proof. reflexivity. Qed.

(** C9.  For every response whose body is [None], [__str__] raises a
    [TypeError] and returns no text: when the status has a phrase the error
    is the one of [len(None)], raised while the [Content-Length] line is
    built.  So the response writer of the adapter raises too and nothing
    is written.  An [HTTPNotFound] built without a reason is such a
    response. *)
Theorem str_no_body_raises (web_responses : Z -> option (string * string))
    (tb : string) (r : Response) :
  _body r = None ->
  (exists exc : PyExc,
     response.__str__ web_responses tb r = Raise (Exc exc)
     /\ exc_class exc = "TypeError")
  /\ (forall code phrase description,
        _status r = Some code ->
        web_responses code = Some (phrase, description) ->
        response.__str__ web_responses tb r = Raise (TypeError_len tb))
  /\ (forall adapter : server.Server,
        exists exc : PyExc,
          server.response_writer web_responses tb adapter r = Raise (Exc exc)).
Proof.
  intros Hb.
  assert (E : exists exc : PyExc,
            response.__str__ web_responses tb r = Raise (Exc exc)
            /\ exc_class exc = "TypeError").
  { unfold response.__str__.
    destruct (response.lookup_status web_responses (_status r)) as [[msg d]|];
      simpl.
    - rewrite Hb. simpl. eexists. split; reflexivity.
    - eexists. split; reflexivity. }
  split; [exact E|]. split.
  - intros code phrase description Hs Hw.
    unfold response.__str__, response.lookup_status.
    rewrite Hs, Hw, Hb. reflexivity.
  - intros adapter. unfold server.response_writer.
    destruct (server._transport adapter) as [transport|].
    + destruct E as [exc [E _]]. exists exc. now rewrite E.
    + eexists. reflexivity.
Qed.

Lemma str_no_body_raises_witness :
  (exists exc : PyExc,
     response.__str__ http_responses "" (exceptions.HTTPNotFound None None)
     = Raise (Exc exc)
     /\ exc_class exc = "TypeError")
  /\ (forall code phrase description,
        _status (exceptions.HTTPNotFound None None) = Some code ->
        http_responses code = Some (phrase, description) ->
        response.__str__ http_responses "" (exceptions.HTTPNotFound None None)
        = Raise (TypeError_len ""))
  /\ (forall adapter : server.Server,
        exists exc : PyExc,
          server.response_writer http_responses "" adapter
            (exceptions.HTTPNotFound None None)
          = Raise (Exc exc)).
Proof.
  apply (str_no_body_raises http_responses "" (exceptions.HTTPNotFound None None)).
  reflexivity.
Defined.

(** ** The connection adapter *)

(** C7 (counterexample).  The parser delivers [Host] and then [host], two
    spellings that differ in case only; the request built at the end of
    the message has both as keys, each with its own value. *)
Lemma header_case_kept_apart :
  lower "Host" = lower "host"
  /\ request_headers
       (server.data_received (fun text => {| raw_path := text |})
          two_hosts_parser EmptyString
          (server.__init__ (application.__init__ None)) "GET / HTTP/1.1")
     = Some [("Host", "a.example"); ("host", "b.example")].
Proof. split; reflexivity. Qed.

(** C7 (amended).  For every header the parser delivers, the key stored
    in the header mapping is the decoded name exactly as delivered, with no
    case normalization: two names that differ, be it in case only, are
    stored under two keys, each with its own value, and the request built
    at the end of the message carries that mapping unchanged. *)
Theorem header_key_as_delivered (yarl_URL : string -> URL) (tb : string)
    (s : server.Server) (h1 v1 h2 v2 version method : string) :
  h1 <> h2 ->
  let s' := server.on_header (server.on_header s h1 v1) h2 v2 in
  dict_get String.eqb (server._headers s') h1 = Some v1
  /\ dict_get String.eqb (server._headers s') h2 = Some v2
  /\ forall s'' : server.Server,
       server.on_message_complete yarl_URL tb s' version method = Ok s'' ->
       exists request : request.Request,
         server._request s'' = Some request
         /\ request._headers request = server._headers s'.
Proof.
  intros Hne s'. subst s'. unfold server.on_header, decode. cbn [server._headers server._encoding].
  split; [|split].
  - rewrite dict_get_set_other by congruence. apply dict_get_set_same.
  - apply dict_get_set_same.
  - intros s'' H. unfold server.on_message_complete in H.
    cbn [server._url server._headers server._body] in H.
    destruct (server._url s) as [url|]; simpl in H; [|discriminate H].
    injection H as H. subst s''. eexists. split; reflexivity.
Qed.

Lemma header_key_as_delivered_witness :
  let s' :=
    server.on_header
      (server.on_header
         (server.on_url (server.__init__ (application.__init__ None)) "/")
         "Host" "a.example")
      "host" "b.example" in
  dict_get String.eqb (server._headers s') "Host" = Some "a.example"
  /\ dict_get String.eqb (server._headers s') "host" = Some "b.example"
  /\ forall s'' : server.Server,
       server.on_message_complete (fun text => {| raw_path := text |})
         EmptyString s' "1.1" "GET" = Ok s'' ->
       exists request : request.Request,
         server._request s'' = Some request
         /\ request._headers request = server._headers s'.
Proof.
  apply (header_key_as_delivered (fun text => {| raw_path := text |})
           EmptyString
           (server.on_url (server.__init__ (application.__init__ None)) "/")
           "Host" "a.example" "host" "b.example" "1.1" "GET").
  discriminate.
Defined.

(** X26.  The same spelling delivered twice is one key, with the later
    value: the mapping is what a single delivery of the later value
    gives. *)
Lemma header_same_spelling_overwrites (s : server.Server) (h v1 v2 : string) :
  server._headers (server.on_header (server.on_header s h v1) h v2)
  = server._headers (server.on_header s h v2).
Proof.
  unfold server.on_header, decode. cbn [server._headers server._encoding].
  induction (server._headers s) as [|[k v] d IH]; simpl.
  - now rewrite String.eqb_refl.
  - destruct (String.eqb k h) eqn:E; simpl; rewrite E; [reflexivity|].
    now rewrite IH.
Qed.

(** ** The protocol factory *)

Lemma heap_update_last (h : Heap) (s : server.Server)
    (f : server.Server -> server.Server) :
  heap_update (h ++ [s]) (length h) f = h ++ [f s].
Proof.
  induction h as [|s0 h IH]; simpl; [reflexivity | now rewrite IH].
Qed.

Lemma nth_error_last (h : Heap) (s : server.Server) :
  nth_error (h ++ [s]) (length h) = Some s.
Proof.
  induction h as [|s0 h IH]; simpl; auto.
Qed.

(** X25.  A factory that builds its protocol, as [_make_server] does,
    answers a new address for each connection, and each adapter holds the
    transport of its own connection. *)
Lemma make_server_fresh (app : application.Application) (h : Heap)
    (t1 t2 : nat) :
  let (p1, h1) := serve.accept (serve._make_server app) t1 h in
  let (p2, h2) := serve.accept (serve._make_server app) t2 h1 in
  p1 <> p2
  /\ nth_error h2 p1 = Some (server.connection_made (server.__init__ app) t1)
  /\ nth_error h2 p2 = Some (server.connection_made (server.__init__ app) t2).
Proof.
  unfold serve.accept, serve._make_server, alloc. cbv beta iota.
  rewrite !heap_update_last.
  split; [rewrite length_app; simpl; lia|]. split.
  - rewrite nth_error_app1 by (rewrite length_app; simpl; lia).
    apply nth_error_last.
  - apply nth_error_last.
Qed.

(** C8 (code at the failing input).  [run_app] builds one [Server] before
    it starts listening, and the factory it hands to [create_server] is
    [lambda: protocol]: every invocation answers the address of that one
    object and creates nothing.  Two accepted connections are therefore
    served by the same adapter, whose parser, url, headers and body are
    shared, and whose transport is the one of the later connection. *)
Theorem run_app_one_adapter (app : application.Application) (h : Heap)
    (t1 t2 : nat) :
  let protocol_factory := fst (serve.run_app app h) in
  let h0 := snd (serve.run_app app h) in
  (forall h' : Heap, protocol_factory h' = (length h, h'))
  /\ let (p1, h1) := serve.accept protocol_factory t1 h0 in
     let (p2, h2) := serve.accept protocol_factory t2 h1 in
     p1 = p2
     /\ length h2 = length h0
     /\ nth_error h2 p2
        = Some (server.connection_made (server.__init__ app) t2).
Proof.
  unfold serve.run_app, serve._make_server, alloc. cbn [fst snd].
  split; [reflexivity|].
  unfold serve.accept. rewrite !heap_update_last.
  split; [reflexivity|]. split.
  - rewrite !length_app. reflexivity.
  - apply nth_error_last.
Qed.

(** * Further properties of the code *)

(** ** router.py *)

(** What follows the first entry plays no part in resolution. *)
Lemma resolve_rest_irrelevant
    (re_match : string -> string -> result (option re.Match))
    (key : string * string) (handler : Handler)
    (rest1 rest2 : list ((string * string) * Handler))
    (request : request.Request) :
  router.resolve re_match {| router._routes := (key, handler) :: rest1 |} request
  = router.resolve re_match {| router._routes := (key, handler) :: rest2 |} request.
Proof.
  unfold router.resolve. simpl. destruct key as [method pattern].
  destruct (re_match pattern (raw_path (request._url request))) as [[m|]|e];
    simpl; auto.
  destruct (negb (String.eqb method (request._method request))); reflexivity.
Qed.

(** X2.  When the first entry's pattern matches the path but its method
    is not the request's, resolution raises a not-found error (status 404,
    not 405) whose reason reads [<method> not allowed for <path>]. *)
Theorem resolve_method_mismatch
    (re_match : string -> string -> result (option re.Match))
    (method pattern : string) (handler : Handler)
    (rest : list ((string * string) * Handler))
    (request : request.Request) (m : re.Match) :
  re_match pattern (raw_path (request._url request)) = Ok (Some m) ->
  method <> request._method request ->
  exists exc : Response,
    router.resolve re_match
      {| router._routes := ((method, pattern), handler) :: rest |} request
    = Raise (HTTPException exc)
    /\ _status exc = Some 404%Z
    /\ _body exc
       = Some (request._method request ++ " not allowed for "
                 ++ raw_path (request._url request))%string.
Proof.
  intros Hm Hne. unfold router.resolve. simpl. rewrite Hm. simpl.
  apply String.eqb_neq in Hne. rewrite Hne. simpl.
  eexists. repeat split.
Qed.

Lemma resolve_method_mismatch_witness :
  exists exc : Response,
    router.resolve py_re_match
      {| router._routes :=
           [(("GET", "/(?P<username>\w+)"), example_handler)] |}
      (request_for "POST" "/alice")
    = Raise (HTTPException exc)
    /\ _status exc = Some 404%Z
    /\ _body exc = Some "POST not allowed for /alice".
Proof.
  apply (resolve_method_mismatch py_re_match "GET" "/(?P<username>\w+)"
           example_handler [] (request_for "POST" "/alice")
           {| re.m_start := 0; re.m_end := 6;
              re.groupdict := [("username", "alice")] |}).
  - reflexivity.
  - discriminate.
Defined.

(** X3.  When the first entry's pattern matches the path and its method is
    the request's, resolution returns the groups of the match together
    with that entry's handler. *)
Theorem resolve_match_returns_first
    (re_match : string -> string -> result (option re.Match))
    (method pattern : string) (handler : Handler)
    (rest : list ((string * string) * Handler))
    (request : request.Request) (m : re.Match) :
  re_match pattern (raw_path (request._url request)) = Ok (Some m) ->
  method = request._method request ->
  router.resolve re_match
    {| router._routes := ((method, pattern), handler) :: rest |} request
  = Ok (Some (re.groupdict m, handler)).
Proof.
  intros Hm He. unfold router.resolve. simpl. rewrite Hm. simpl.
  subst method. now rewrite String.eqb_refl.
Qed.

Lemma resolve_match_returns_first_witness :
  router.resolve py_re_match
    {| router._routes :=
         [(("GET", "/(?P<username>\w+)"), example_handler)] |}
    (request_for "GET" "/alice")
  = Ok (Some ([("username", "alice")], example_handler)).
Proof.
  apply (resolve_match_returns_first py_re_match "GET" "/(?P<username>\w+)"
           example_handler [] (request_for "GET" "/alice")
           {| re.m_start := 0; re.m_end := 6;
              re.groupdict := [("username", "alice")] |});
    reflexivity.
Defined.

Lemma key_eqb_refl (key : string * string) : router.key_eqb key key = true.
Proof.
  unfold router.key_eqb. now rewrite !String.eqb_refl.
Qed.

Lemma routes_set_twice (d : list ((string * string) * Handler))
    (key : string * string) (h1 h2 : Handler) :
  dict_set router.key_eqb (dict_set router.key_eqb d key h1) key h2
  = dict_set router.key_eqb d key h2.
Proof.
  induction d as [|[k h] d IH]; simpl.
  - now rewrite key_eqb_refl.
  - destruct (router.key_eqb k key) eqn:E; simpl; rewrite E; [reflexivity|].
    now rewrite IH.
Qed.

(** X4.  Two registrations for the same method whose paths compile to the
    same pattern share one entry of the route table: the later handler
    takes the place of the earlier one, which is no longer reachable.
    This is so for the same path registered twice, and for different
    paths that differ only after their last placeholder. *)
Theorem add_route_same_pattern_overwrites (self : router.UrlDispatcher)
    (method path1 path2 : string) (h1 h2 : Handler) :
  router._format_pattern path1 = router._format_pattern path2 ->
  router.add_route (router.add_route self method path1 h1) method path2 h2
  = router.add_route self method path2 h2.
Proof.
  intros E. unfold router.add_route. cbn [router._routes].
  rewrite E. now rewrite routes_set_twice.
Qed.

Lemma add_route_same_pattern_overwrites_witness :
  router.add_route
    (router.add_route router.__init__ "GET" "/users/{id}/posts"
       (const_handler "posts"))
    "GET" "/users/{id}/comments" (const_handler "comments")
  = router.add_route router.__init__ "GET" "/users/{id}/comments"
      (const_handler "comments").
Proof.
  apply (add_route_same_pattern_overwrites router.__init__ "GET"
           "/users/{id}/posts" "/users/{id}/comments"
           (const_handler "posts") (const_handler "comments")).
  reflexivity.
Defined.

(** X5.  Once the route table has an entry, registering a route under
    another key appends it after that entry, and resolution, which reads
    the first entry only, answers every request as before. *)
Theorem add_route_later_keeps_resolution
    (re_match : string -> string -> result (option re.Match))
    (self : router.UrlDispatcher) (key0 : string * string) (h0 : Handler)
    (rest : list ((string * string) * Handler))
    (method path : string) (handler : Handler) (request : request.Request) :
  router._routes self = (key0, h0) :: rest ->
  router.key_eqb key0 (method, router._format_pattern path) = false ->
  router.resolve re_match (router.add_route self method path handler) request
  = router.resolve re_match self request.
Proof.
  intros Hr Hk. destruct self as [routes]. cbn [router._routes] in Hr.
  subst routes. unfold router.add_route. cbn [router._routes dict_set].
  rewrite Hk. apply resolve_rest_irrelevant.
Qed.

Lemma add_route_later_keeps_resolution_witness :
  router.resolve py_re_match
    (router.add_route
       (router.add_route router.__init__ "GET" "/{username}" example_handler)
       "GET" "/static/{name}" (const_handler "file"))
    (request_for "GET" "/static/logo")
  = router.resolve py_re_match
      (router.add_route router.__init__ "GET" "/{username}" example_handler)
      (request_for "GET" "/static/logo").
Proof.
  apply (add_route_later_keeps_resolution py_re_match
           (router.add_route router.__init__ "GET" "/{username}" example_handler)
           ("GET", "/(?P<username>\w+)") example_handler []
           "GET" "/static/{name}" (const_handler "file")
           (request_for "GET" "/static/logo"));
    reflexivity.
Defined.

Lemma word_splits_not_word_start (rest : string) :
  not_word_start rest = true -> re.word_splits rest = [].
Proof.
  destruct rest as [|c rest]; simpl; [reflexivity|].
  intros H. apply negb_true_iff in H. now rewrite H.
Qed.

(** The greedy group first takes the whole run of word characters, up to
    the end of the text or the first other character. *)
Lemma word_splits_run (w rest : string) :
  w <> EmptyString ->
  all_word w = true ->
  not_word_start rest = true ->
  exists others, re.word_splits (w ++ rest) = (w, rest) :: others.
Proof.
  intros Hne Hw Hr. induction w as [|a w IH]; [contradiction|].
  unfold all_word in Hw. cbn [list_ascii_of_string forallb] in Hw.
  apply andb_true_iff in Hw. destruct Hw as [Ha Hw].
  cbn [append re.word_splits]. rewrite Ha.
  destruct w as [|b w].
  - cbn [append]. rewrite (word_splits_not_word_start rest Hr).
    simpl. eexists. reflexivity.
  - destruct IH as [others E]; [discriminate | exact Hw |].
    rewrite E. simpl. eexists. reflexivity.
Qed.

(** X6.  With [/{username}] registered for GET, every GET request whose
    path is a slash, a non-empty run of word characters, and then nothing
    or anything that begins with another character, resolves to the
    handler, the parameter [username] being that whole run: what follows
    the run is ignored, whatever it is. *)
Theorem resolve_username_any_word (handler : Handler) (w rest : string) :
  w <> EmptyString ->
  all_word w = true ->
  not_word_start rest = true ->
  router.resolve py_re_match
    (router.add_route router.__init__ "GET" "/{username}" handler)
    (request_for "GET" ("/" ++ w ++ rest))
  = Ok (Some ([("username", w)], handler)).
Proof.
  intros Hne Hw Hr.
  destruct (word_splits_run w rest Hne Hw Hr) as [others E].
  unfold router.add_route. rewrite format_pattern_username.
  unfold router.resolve, request_for, request.__init__, decode.
  cbn [router.__init__ router._routes dict_set for_items request._url
       request._method raw_path].
  unfold py_re_match, re.match_.
  change (re.compile "/(?P<username>\w+)")
    with (re.Compiled [re.Lit "/"; re.Group "username"]).
  cbn [append re.match_toks]. rewrite Ascii.eqb_refl.
  rewrite E. cbn. reflexivity.
Qed.

Lemma resolve_username_any_word_witness :
  router.resolve py_re_match
    (router.add_route router.__init__ "GET" "/{username}" example_handler)
    (request_for "GET" ("/" ++ "bob_42" ++ "-x/y"))
  = Ok (Some ([("username", "bob_42")], example_handler)).
Proof.
  apply (resolve_username_any_word example_handler "bob_42" "-x/y");
    [discriminate | reflexivity | reflexivity].
Defined.

Lemma format_pattern_one_placeholder_witness :
  router._format_pattern ("/users/" ++ "{" ++ "id" ++ "}" ++ "/posts")
  = ("/users/" ++ "(?P<" ++ "id" ++ ">\w+)")%string.
Proof.
  apply (format_pattern_one_placeholder "/users/" "id" "/posts");
    [reflexivity | discriminate | reflexivity | reflexivity].
Defined.

(** ** response.py and exceptions.py *)

Lemma str_with_body_witness :
  response.__str__ http_responses EmptyString
    (response.add_header
       (response.__init__ (Some "hello") (Some 200%Z) "text/plain" None "1.1")
       "X-Id" "7")
  = Ok (join nl
          ([ ("HTTP/" ++ "1.1" ++ " " ++ str_of_Z 200 ++ " " ++ "OK")%string;
             ("Content-Type: " ++ "text/plain")%string;
             ("Content-Length: " ++ str_of_nat (String.length "hello"))%string;
             "Connection: close" ]
           ++ map (fun hv => (fst hv ++ ": " ++ snd hv)%string) [("X-Id", "7")]
           ++ [(nl ++ "hello")%string])).
Proof.
  apply (str_with_body http_responses EmptyString
           (response.add_header
              (response.__init__ (Some "hello") (Some 200%Z) "text/plain"
                 None "1.1")
              "X-Id" "7")
           200%Z "OK" "Request fulfilled, document follows" "hello");
    reflexivity.
Defined.

(** X9.  A response whose status has no entry in the phrase table (an
    unknown code, or the [None] of the base class [HTTPException]) cannot
    be serialized, body or not: unpacking the failed lookup raises
    [TypeError] before any line is built.  An adapter that holds a
    transport raises that [TypeError] from [response_writer]; an adapter
    without one raises the [AttributeError] of the missing transport
    first. *)
Theorem str_unknown_status_raises
    (web_responses : Z -> option (string * string)) (tb : string)
    (r : Response) :
  response.lookup_status web_responses (_status r) = None ->
  response.__str__ web_responses tb r = Raise (TypeError_unpack tb)
  /\ (forall (adapter : server.Server) (transport : nat),
        server.response_writer web_responses tb
          (server.connection_made adapter transport) r
        = Raise (TypeError_unpack tb))
  /\ (forall adapter : server.Server,
        server._transport adapter = None ->
        server.response_writer web_responses tb adapter r
        = Raise (AttributeError_None "write" tb)).
Proof.
  intros H.
  assert (E : response.__str__ web_responses tb r = Raise (TypeError_unpack tb)).
  { unfold response.__str__. now rewrite H. }
  split; [exact E|]. split.
  - intros adapter transport. unfold server.response_writer.
    cbn [server.connection_made server._transport]. now rewrite E.
  - intros adapter Ht. unfold server.response_writer. now rewrite Ht.
Qed.

Lemma str_unknown_status_raises_witness :
  response.__str__ http_responses EmptyString
    (exceptions.__init__ None (Some "teapot") None)
  = Raise (TypeError_unpack EmptyString)
  /\ (forall (adapter : server.Server) (transport : nat),
        server.response_writer http_responses EmptyString
          (server.connection_made adapter transport)
          (exceptions.__init__ None (Some "teapot") None)
        = Raise (TypeError_unpack EmptyString))
  /\ (forall adapter : server.Server,
        server._transport adapter = None ->
        server.response_writer http_responses EmptyString adapter
          (exceptions.__init__ None (Some "teapot") None)
        = Raise (AttributeError_None "write" EmptyString)).
Proof.
  apply (str_unknown_status_raises http_responses EmptyString
           (exceptions.__init__ None (Some "teapot") None)).
  reflexivity.
Defined.

Lemma In_keys_dict_set (d : list (string * string)) (k v x : string) :
  In x (keys (dict_set String.eqb d k v)) -> x = k \/ In x (keys d).
Proof.
  induction d as [|[k' v'] d IH]; simpl.
  - intros [H|[]]. left. now symmetry.
  - destruct (String.eqb k' k) eqn:E; simpl.
    + intros [H|H]; right; [left|right]; assumption.
    + intros [H|H]; [right; left; assumption|].
      destruct (IH H) as [H'|H']; [left|right; right]; assumption.
Qed.

Lemma NoDup_keys_dict_set (d : list (string * string)) (k v : string) :
  NoDup (keys d) -> NoDup (keys (dict_set String.eqb d k v)).
Proof.
  induction d as [|[k' v'] d IH]; simpl; intros H.
  - constructor; [intros [] | constructor].
  - inversion H as [|x l Hnin Hnd]; subst.
    destruct (String.eqb k' k) eqn:E; simpl.
    + constructor; assumption.
    + constructor; [|now apply IH].
      intros Hin. apply In_keys_dict_set in Hin. destruct Hin as [Hk|Hin].
      * subst k'. now rewrite String.eqb_refl in E.
      * contradiction.
Qed.

(** X10.  [add_header] followed by a lookup: the key holds the value just
    given, every other key holds what it held, and a mapping without a
    repeated key stays so, so each user header is written once by
    [__str__]. *)
Theorem add_header_lookup (r : Response) (key value : string) :
  dict_get String.eqb (_headers (response.add_header r key value)) key
  = Some value
  /\ (forall other : string,
        other <> key ->
        dict_get String.eqb (_headers (response.add_header r key value)) other
        = dict_get String.eqb (_headers r) other)
  /\ (NoDup (keys (_headers r)) ->
      NoDup (keys (_headers (response.add_header r key value)))).
Proof.
  unfold response.add_header. cbn [_headers]. split; [|split].
  - apply dict_get_set_same.
  - intros other Hne. apply dict_get_set_other. congruence.
  - apply NoDup_keys_dict_set.
Qed.

(** X11.  The content type of an [HTTPException] is never empty: [None]
    and the empty string both give [text/plain], and any other value is
    kept. *)
Theorem exception_content_type (status_code : option Z)
    (reason content_type : option string) :
  _content_type (exceptions.__init__ status_code reason content_type)
  <> EmptyString
  /\ (forall c : string,
        content_type = Some c -> c <> EmptyString ->
        _content_type (exceptions.__init__ status_code reason content_type) = c).
Proof.
  split.
  - destruct content_type as [[|a c]|]; simpl; discriminate.
  - intros c E Hne. subst content_type.
    destruct c as [|a c]; [contradiction | reflexivity].
Qed.

(** X12.  An [HTTPFound] built with a reason is serialized as a 302 whose
    only user header is [Location], written after the three fixed header
    lines and before the empty line. *)
Theorem HTTPFound_wire (web_responses : Z -> option (string * string))
    (tb location reason description : string) :
  web_responses 302%Z = Some ("Found", description) ->
  response.__str__ web_responses tb
    (exceptions.HTTPFound location (Some reason) None)
  = Ok ("HTTP/1.1 302 Found" ++ nl
        ++ "Content-Type: text/plain" ++ nl
        ++ "Content-Length: " ++ str_of_nat (String.length reason) ++ nl
        ++ "Connection: close" ++ nl
        ++ "Location: " ++ location ++ nl
        ++ nl ++ reason)%string.
Proof.
  intros H. unfold response.__str__, response.lookup_status.
  cbn [exceptions.HTTPFound exceptions.__init__ response.__init__
       response.add_header _status _body _headers _version _content_type
       dict_set].
  rewrite H. reflexivity.
Qed.

Lemma HTTPFound_wire_witness :
  response.__str__ http_responses EmptyString
    (exceptions.HTTPFound "/login" (Some "moved") None)
  = Ok ("HTTP/1.1 302 Found" ++ nl
        ++ "Content-Type: text/plain" ++ nl
        ++ "Content-Length: " ++ str_of_nat (String.length "moved") ++ nl
        ++ "Connection: close" ++ nl
        ++ "Location: " ++ "/login" ++ nl
        ++ nl ++ "moved")%string.
Proof.
  apply (HTTPFound_wire http_responses EmptyString "/login" "moved"
           "Object moved temporarily -- see URI list").
  reflexivity.
Defined.

(** X13.  [json_response] sets the body to [json.dumps(data)] and the
    content type to [application/json] whatever body and content type the
    caller passes; with no status given the wire text is a 200 whose
    [Content-Length] is the length of the dumped text. *)
Theorem json_response_wire (Data : Type) (dumps : Data -> result string)
    (web_responses : Z -> option (string * string)) (tb : string)
    (data : Data) (text description : string)
    (body : option (option string)) (content_type : option string) :
  dumps data = Ok text ->
  web_responses 200%Z = Some ("OK", description) ->
  let kwargs :=
    {| kw_body := body; kw_status := None; kw_content_type := content_type;
       kw_headers := None; kw_version := None |} in
  json_response Data dumps data kwargs
  = Ok (response.__init__ (Some text) (Some 200%Z) "application/json"
          None "1.1")
  /\ (r <- json_response Data dumps data kwargs ;;
      response.__str__ web_responses tb r)
     = Ok ("HTTP/1.1 200 OK" ++ nl
           ++ "Content-Type: application/json" ++ nl
           ++ "Content-Length: " ++ str_of_nat (String.length text) ++ nl
           ++ "Connection: close" ++ nl
           ++ nl ++ text)%string.
Proof.
  intros Hd Hw kwargs. unfold json_response. rewrite Hd.
  split; [reflexivity|].
  unfold response.__str__, response.lookup_status.
  cbn [bind Response_of_kwargs kwargs kw_body kw_status kw_content_type
       kw_headers kw_version response.__init__ _status _body _headers].
  rewrite Hw. reflexivity.
Qed.

Lemma json_response_wire_witness :
  let kwargs :=
    {| kw_body := Some (Some "ignored"); kw_status := None;
       kw_content_type := Some "text/html";
       kw_headers := None; kw_version := None |} in
  json_response nat dumps_int 42 kwargs
  = Ok (response.__init__ (Some "42") (Some 200%Z) "application/json"
          None "1.1")
  /\ (r <- json_response nat dumps_int 42 kwargs ;;
      response.__str__ http_responses EmptyString r)
     = Ok ("HTTP/1.1 200 OK" ++ nl
           ++ "Content-Type: application/json" ++ nl
           ++ "Content-Length: " ++ str_of_nat (String.length "42") ++ nl
           ++ "Connection: close" ++ nl
           ++ nl ++ "42")%string.
Proof.
  apply (json_response_wire nat dumps_int http_responses EmptyString 42 "42"
           "Request fulfilled, document follows"
           (Some (Some "ignored")) (Some "text/html"));
    reflexivity.
Defined.

(** ** helpers.py *)

Lemma replace_newlines_no_newline (s : string) :
  no_newline (helpers.replace_newlines "</br>" s) = true.
Proof.
  unfold no_newline. induction s as [|c s IH]; [reflexivity|].
  cbn [helpers.replace_newlines].
  destruct (Ascii.eqb c (ascii_of_nat 10)) eqn:E.
  - cbn [append list_ascii_of_string forallb]. simpl. exact IH.
  - cbn [list_ascii_of_string forallb]. rewrite E. simpl. exact IH.
Qed.

(** X14.  The body of the 500 page is the template filled with
    [str(exc)] and with the traceback in which every line break is
    replaced by [</br>]: the traceback paragraph holds no line break,
    for every exception. *)
Theorem replace_newlines_none_left (exc : PyExc) :
  exists trace : string,
    _body (helpers.format_exception exc)
    = Some (helpers.server_exception_templ (exc_str exc) trace)
    /\ trace = helpers.replace_newlines "</br>" (exc_traceback exc)
    /\ no_newline trace = true.
Proof.
  eexists. split; [reflexivity|]. split; [reflexivity|].
  apply replace_newlines_no_newline.
Qed.

(** ** application.py *)

Lemma handler_non_response_raises_witness :
  application._handler py_re_match application.module_partial no_tb
    (app_with "/{username}" none_handler [])
    (request_for "GET" "/alice") capture
  = Raise (application.RuntimeError_not_response "NoneType" (no_tb 90)).
Proof.
  apply (handler_non_response_raises py_re_match application.module_partial
           no_tb Response (app_with "/{username}" none_handler [])
           (request_for "GET" "/alice") capture "NoneType").
  reflexivity.
Defined.

Lemma handler_middlewares_NameError_witness :
  application.try_body py_re_match application.module_partial no_tb
    (app_with "/{username}" example_handler [tag "A"])
    (request_for "GET" "/alice")
  = Raise (NameError "partial" (no_tb 81)).
Proof.
  apply (handler_middlewares_NameError py_re_match no_tb Response
           (app_with "/{username}" example_handler [tag "A"])
           (request_for "GET" "/alice") capture
           ([("username", "alice")], example_handler)).
  - reflexivity.
  - discriminate.
Defined.

(** X17.  Without middlewares, a request that resolves is answered by the
    resolved handler, which is called with the request whose [match_info]
    holds the groups of the match; the response it returns is the one
    handed to the response writer. *)
Theorem handler_success
    (re_match : string -> string -> result (option re.Match))
    (partial : option (Middleware -> Handler -> Handler))
    (tb : nat -> string) (W : Type)
    (self : application.Application) (request : request.Request)
    (response_writer : Response -> result W)
    (match_info : list (string * string)) (handler : Handler) (r : Response) :
  router.resolve re_match (application._router self) request
  = Ok (Some (match_info, handler)) ->
  application._middlewares self = [] ->
  handler (request.set_match_info request match_info) = Ok (VResponse r) ->
  application._handler re_match partial tb self request response_writer
  = response_writer r.
Proof.
  intros Hres Hmds Hh. unfold application._handler, application.try_body.
  rewrite Hres, Hmds. cbn [bind fst snd]. rewrite Hh. reflexivity.
Qed.

Lemma handler_success_witness :
  application._handler py_re_match application.module_partial no_tb
    (app_with "/{username}" example_handler [])
    (request_for "GET" "/alice") capture
  = capture (response.__init__ (Some "Hello, alice") (Some 200%Z)
               "text/plain" None "1.1").
Proof.
  apply (handler_success py_re_match application.module_partial no_tb
           Response (app_with "/{username}" example_handler [])
           (request_for "GET" "/alice") capture
           [("username", "alice")] example_handler);
    reflexivity.
Defined.

(** X18.  A request whose path the first route does not match is answered
    on the wire by a complete 404: the adapter writes the status line, the
    three fixed headers and the reason [Could not find <path>] to its
    transport. *)
Theorem handler_unmatched_path_wire
    (re_match : string -> string -> result (option re.Match))
    (partial : option (Middleware -> Handler -> Handler))
    (tb : nat -> string)
    (web_responses : Z -> option (string * string)) (tbs : string)
    (self : application.Application) (method pattern : string)
    (handler : Handler) (rest : list ((string * string) * Handler))
    (request : request.Request) (adapter : server.Server) (transport : nat)
    (description : string) :
  router._routes (application._router self)
  = ((method, pattern), handler) :: rest ->
  re_match pattern (raw_path (request._url request)) = Ok None ->
  web_responses 404%Z = Some ("Not Found", description) ->
  let reason := ("Could not find " ++ raw_path (request._url request))%string in
  application._handler re_match partial tb self request
    (server.response_writer web_responses tbs
       (server.connection_made adapter transport))
  = Ok (transport,
        ("HTTP/1.1 404 Not Found" ++ nl
         ++ "Content-Type: text/plain" ++ nl
         ++ "Content-Length: " ++ str_of_nat (String.length reason) ++ nl
         ++ "Connection: close" ++ nl
         ++ nl ++ reason)%string).
Proof.
  intros Hr Hm Hw reason.
  unfold application._handler, application.try_body, router.resolve.
  rewrite Hr. cbn [for_items]. rewrite Hm. cbn [bind].
  unfold server.response_writer, response.__str__, response.lookup_status.
  cbn [exceptions.HTTPNotFound exceptions.__init__ response.__init__
       _status _body _headers _version _content_type
       server.connection_made server._transport].
  rewrite Hw. reflexivity.
Qed.

Lemma handler_unmatched_path_wire_witness :
  let reason :=
    ("Could not find "
       ++ raw_path (request._url (request_for "GET" "/alice")))%string in
  application._handler py_re_match application.module_partial no_tb
    (app_with "/x/{username}" example_handler [])
    (request_for "GET" "/alice")
    (server.response_writer http_responses EmptyString
       (server.connection_made
          (server.__init__ (app_with "/x/{username}" example_handler [])) 7))
  = Ok (7,
        ("HTTP/1.1 404 Not Found" ++ nl
         ++ "Content-Type: text/plain" ++ nl
         ++ "Content-Length: " ++ str_of_nat (String.length reason) ++ nl
         ++ "Connection: close" ++ nl
         ++ nl ++ reason)%string).
Proof.
  apply (handler_unmatched_path_wire py_re_match application.module_partial
           no_tb http_responses EmptyString
           (app_with "/x/{username}" example_handler [])
           "GET" "/x/(?P<username>\w+)" example_handler []
           (request_for "GET" "/alice")
           (server.__init__ (app_with "/x/{username}" example_handler [])) 7
           "Nothing matches the given URI");
    reflexivity.
Defined.

(** X19.  Whatever [Exception] the body of the [try] raises, the error
    page can be written: with a transport attached and a phrase for 500,
    [_handler] ends by writing a text that begins with the 500 status line
    and the [text/html] content type, and raises nothing. *)
Theorem handler_error_page_written
    (re_match : string -> string -> result (option re.Match))
    (partial : option (Middleware -> Handler -> Handler))
    (tb : nat -> string)
    (web_responses : Z -> option (string * string)) (tbs : string)
    (self : application.Application) (request : request.Request)
    (adapter : server.Server) (transport : nat)
    (exc : PyExc) (phrase description : string) :
  application.try_body re_match partial tb self request = Raise (Exc exc) ->
  web_responses 500%Z = Some (phrase, description) ->
  exists rest : string,
    application._handler re_match partial tb self request
      (server.response_writer web_responses tbs
         (server.connection_made adapter transport))
    = Ok (transport,
          ("HTTP/1.1 500 " ++ phrase ++ nl
           ++ "Content-Type: text/html" ++ nl ++ rest)%string).
Proof.
  intros Ht Hw. unfold application._handler. rewrite Ht. cbn [bind].
  unfold server.response_writer, response.__str__, response.lookup_status.
  cbn [helpers.format_exception response.__init__ response.add_body
       _status _body _headers _version _content_type
       server.connection_made server._transport].
  rewrite Hw. cbn [bind].
  eexists. cbn [join app]. rewrite !append_assoc. cbn [append].
  reflexivity.
Qed.

Lemma handler_error_page_written_witness :
  exists rest : string,
    application._handler py_re_match application.module_partial no_tb
      (app_with "/{username}" failing_handler [])
      (request_for "GET" "/alice")
      (server.response_writer http_responses EmptyString
         (server.connection_made
            (server.__init__ (app_with "/{username}" failing_handler [])) 7))
    = Ok (7,
          ("HTTP/1.1 500 " ++ "Internal Server Error" ++ nl
           ++ "Content-Type: text/html" ++ nl ++ rest)%string).
Proof.
  apply (handler_error_page_written py_re_match application.module_partial
           no_tb http_responses EmptyString
           (app_with "/{username}" failing_handler [])
           (request_for "GET" "/alice")
           (server.__init__ (app_with "/{username}" failing_handler [])) 7
           ValueError_boom "Internal Server Error"
           "Server got itself in trouble");
    reflexivity.
Defined.

(** ** sketch.py: the middleware step of the single-file copy *)

(** X20.  In the single-file copy, two middlewares are not nested: each
    is called in turn with the request and the bare resolved handler, the
    response of the first is discarded, and the response of the second is
    the result; when the first raises, the second is not called. *)
Theorem single_file_middlewares_in_turn
    (re_match : string -> string -> result (option re.Match))
    (tb : nat -> string)
    (self : application.Application) (request : request.Request)
    (match_info : list (string * string)) (handler : Handler)
    (A B : Middleware) :
  router.resolve re_match (application._router self) request
  = Ok (Some (match_info, handler)) ->
  application._middlewares self = [A; B] ->
  let request' := request.set_match_info request match_info in
  sketch_py.try_body re_match tb self request
  = (_ <- A request' handler ;; B request' handler).
Proof.
  intros Hres Hmds request'. unfold sketch_py.try_body.
  rewrite Hres, Hmds. cbn [bind fst snd for_each]. subst request'.
  destruct (A (request.set_match_info request match_info) handler) as [v|e];
    cbn [bind]; [|reflexivity].
  destruct (B (request.set_match_info request match_info) handler);
    reflexivity.
Qed.

Lemma single_file_middlewares_in_turn_witness :
  let request' :=
    request.set_match_info (request_for "GET" "/alice")
      [("username", "alice")] in
  sketch_py.try_body py_re_match no_tb
    (app_with "/{username}" example_handler [tag "A"; tag "B"])
    (request_for "GET" "/alice")
  = (_ <- tag "A" request' example_handler ;; tag "B" request' example_handler).
Proof.
  apply (single_file_middlewares_in_turn py_re_match no_tb
           (app_with "/{username}" example_handler [tag "A"; tag "B"])
           (request_for "GET" "/alice")
           [("username", "alice")] example_handler (tag "A") (tag "B"));
    reflexivity.
Defined.

(** ** request.py *)

(** X21.  [Request.json()] answers [None] for a request without a body;
    for a request with a body it raises [NameError] in the package as it
    is written, where [request.py] never imports [json], and it parses
    the decoded body where [json] is bound. *)
Theorem request_json_cases (Data : Type) (loads : string -> result Data)
    (tb : string) (self : request.Request) :
  match request._body self with
  | None =>
      request_json Data None tb self = Ok None
      /\ request_json Data (Some loads) tb self = Ok None
  | Some body =>
      request_json Data None tb self = Raise (NameError "json" tb)
      /\ request_json Data (Some loads) tb self
         = (value <- loads body ;; Ok (Some value))
  end.
Proof.
  unfold request_json, request_text, decode.
  destruct (request._body self); split; reflexivity.
Qed.

(** ** server.py and http_parser.py *)

Lemma for_each_app {A X : Type} (xs ys : list X) (body : A -> X -> result A)
    (acc : A) :
  for_each (xs ++ ys) body acc
  = (acc' <- for_each xs body acc ;; for_each ys body acc').
Proof.
  revert acc. induction xs as [|x xs IH]; intros acc; simpl; [reflexivity|].
  destruct (body acc x) as [acc'|e]; simpl; [apply IH | reflexivity].
Qed.

Lemma In_keys_set_keeps (d : list (string * string)) (k v x : string) :
  In x (keys d) -> In x (keys (dict_set String.eqb d k v)).
Proof.
  induction d as [|[k' v'] d IH]; simpl; [intros []|].
  destruct (String.eqb k' k); simpl; intros [H|H]; auto.
Qed.

Lemma callback_keeps_header_keys (yarl_URL : string -> URL) (tb : string)
    (ev : parser_event) (self self' : server.Server) (key : string) :
  server.callback yarl_URL tb self ev = Ok self' ->
  In key (keys (server._headers self)) ->
  In key (keys (server._headers self')).
Proof.
  destruct ev as [url|header value|data|version method]; simpl; intros H Hin.
  - injection H as H. subst self'. exact Hin.
  - injection H as H. subst self'. simpl. now apply In_keys_set_keeps.
  - injection H as H. subst self'. exact Hin.
  - unfold server.on_message_complete in H.
    destruct (server._url self); simpl in H; [|discriminate H].
    injection H as H. subst self'. exact Hin.
Qed.

Lemma events_keep_header_keys (yarl_URL : string -> URL) (tb : string)
    (events : list parser_event) (self self' : server.Server) (key : string) :
  for_each events (server.callback yarl_URL tb) self = Ok self' ->
  In key (keys (server._headers self)) ->
  In key (keys (server._headers self')).
Proof.
  revert self. induction events as [|ev events IH]; intros s H Hin;
    cbn [for_each] in H.
  - injection H as H. now subst self'.
  - destruct (server.callback yarl_URL tb s ev) as [s1|e] eqn:E;
      cbn [bind] in H; [|discriminate H].
    apply (IH s1 H). now apply (callback_keeps_header_keys _ _ _ _ _ _ E).
Qed.

(** X22.  The adapter never drops a header: every key its header mapping
    holds before a chunk is received is still there afterwards, message
    boundaries included, so headers of an earlier request stay in the
    mapping handed to a later one. *)
Theorem adapter_keeps_header_keys (yarl_URL : string -> URL)
    (parser_events : list string -> string -> list parser_event)
    (tb : string) (self self' : server.Server) (data key : string) :
  server.data_received yarl_URL parser_events tb self data = Ok self' ->
  In key (keys (server._headers self)) ->
  In key (keys (server._headers self')).
Proof.
  unfold server.data_received. intros H Hin.
  apply (events_keep_header_keys _ _ _ _ _ _ H). exact Hin.
Qed.

Lemma adapter_keeps_header_keys_witness :
  In "X-Old"
    (keys [("X-Old", "1"); ("Host", "a.example"); ("host", "b.example")]).
Proof.
  apply (adapter_keeps_header_keys (fun text => {| raw_path := text |})
           two_hosts_parser EmptyString
           (server.on_header (server.__init__ (application.__init__ None))
              "X-Old" "1")
           {| server._app := application.__init__ None;
              server._encoding := "utf-8";
              server._url := Some "/";
              server._request :=
                Some (request.__init__ (fun text => {| raw_path := text |})
                        "GET" "/"
                        [("X-Old", "1"); ("Host", "a.example");
                         ("host", "b.example")] "1.1" None);
              server._body := None;
              server._request_handler_task :=
                Some (request.__init__ (fun text => {| raw_path := text |})
                        "GET" "/"
                        [("X-Old", "1"); ("Host", "a.example");
                         ("host", "b.example")] "1.1" None);
              server._transport := None;
              server._request_parser := ["GET / HTTP/1.1"];
              server._headers :=
                [("X-Old", "1"); ("Host", "a.example"); ("host", "b.example")] |}
           "GET / HTTP/1.1" "X-Old");
    [reflexivity | simpl; auto].
Defined.

(** X23.  [response_writer] writes the text of [__str__] to the transport
    the adapter holds; after [connection_lost] there is none, and the call
    raises [AttributeError] instead of writing. *)
Theorem response_writer_transport
    (web_responses : Z -> option (string * string)) (tb : string)
    (adapter : server.Server) (transport : nat) (r : Response)
    (text : string) :
  response.__str__ web_responses tb r = Ok text ->
  server.response_writer web_responses tb
    (server.connection_made adapter transport) r
  = Ok (transport, text)
  /\ server.response_writer web_responses tb
       (server.connection_lost (server.connection_made adapter transport)) r
     = Raise (AttributeError_None "write" tb).
Proof.
  intros H. unfold server.response_writer.
  cbn [server.connection_made server.connection_lost server._transport].
  rewrite H. split; reflexivity.
Qed.

Lemma response_writer_transport_witness :
  server.response_writer http_responses EmptyString
    (server.connection_made (server.__init__ (application.__init__ None)) 7)
    (response.__init__ (Some "hi") (Some 200%Z) "text/plain" None "1.1")
  = Ok (7, ("HTTP/1.1 200 OK" ++ nl ++ "Content-Type: text/plain" ++ nl
            ++ "Content-Length: 2" ++ nl ++ "Connection: close" ++ nl
            ++ nl ++ "hi")%string)
  /\ server.response_writer http_responses EmptyString
       (server.connection_lost
          (server.connection_made
             (server.__init__ (application.__init__ None)) 7))
       (response.__init__ (Some "hi") (Some 200%Z) "text/plain" None "1.1")
     = Raise (AttributeError_None "write" EmptyString).
Proof.
  apply (response_writer_transport http_responses EmptyString
           (server.__init__ (application.__init__ None)) 7
           (response.__init__ (Some "hi") (Some 200%Z) "text/plain" None "1.1")).
  reflexivity.
Defined.

Lemma header_events_fold (yarl_URL : string -> URL) (tb : string)
    (headers : list (string * string)) (self : server.Server) :
  for_each (header_events headers) (server.callback yarl_URL tb) self
  = Ok (fold_left (fun s hv => server.on_header s (fst hv) (snd hv))
          headers self).
Proof.
  revert self. induction headers as [|[h v] headers IH]; intros self;
    [reflexivity|].
  cbn [header_events map for_each server.callback bind fst snd fold_left].
  apply IH.
Qed.

Lemma fold_on_header_fields (headers : list (string * string))
    (self : server.Server) :
  let s := fold_left (fun s hv => server.on_header s (fst hv) (snd hv))
             headers self in
  server._url s = server._url self
  /\ server._body s = server._body self
  /\ server._headers s
     = fold_left (fun d hv => dict_set String.eqb d (fst hv) (snd hv))
         headers (server._headers self).
Proof.
  revert self. induction headers as [|[h v] headers IH]; intros self;
    [repeat split|].
  cbn [fold_left fst snd].
  destruct (IH (server.on_header self h v)) as [Hu [Hb Hh]].
  cbv zeta. rewrite Hu, Hb, Hh. repeat split.
Qed.

(** X24.  A chunk for which the parser reports a url, headers, an
    optional body and the end of the message makes a fresh adapter build
    the request from exactly those parts: the reported method and version,
    the url, the headers gathered in delivery order (a repeated name
    keeping its first place and its last value), the body, and an empty
    [match_info]; the dispatch task is created for that request. *)
Theorem request_from_events (yarl_URL : string -> URL)
    (parser_events : list string -> string -> list parser_event)
    (tb : string) (app : application.Application)
    (data url version method : string)
    (headers : list (string * string)) (body : option string) :
  parser_events [] data
  = ev_url url
      :: header_events headers ++ body_events body
      ++ [ev_message_complete version method] ->
  let request :=
    request.__init__ yarl_URL method url
      (fold_left (fun d hv => dict_set String.eqb d (fst hv) (snd hv))
         headers [])
      version body in
  exists self' : server.Server,
    server.data_received yarl_URL parser_events tb (server.__init__ app) data
    = Ok self'
    /\ server._request self' = Some request
    /\ server._request_handler_task self' = Some request
    /\ request._match_info request = [].
Proof.
  intros Hev request. unfold server.data_received.
  cbn [server.__init__ server._request_parser]. rewrite Hev.
  cbn [for_each server.callback bind].
  rewrite for_each_app, header_events_fold. cbn [bind].
  match goal with
  | |- context [fold_left _ headers ?s0] =>
      destruct (fold_on_header_fields headers s0) as [Hu [Hb Hh]];
      set (s1 := fold_left (fun s hv => server.on_header s (fst hv) (snd hv))
                   headers s0) in *
  end.
  cbv zeta in Hu, Hb, Hh. cbn [server.on_url server._url server._body
                                 server._headers] in Hu, Hb, Hh.
  destruct body as [b|];
    cbn [body_events List.app for_each server.callback bind];
    unfold server.on_message_complete;
    cbn [server.on_body server._url server._body server._headers];
    rewrite Hu, ?Hb, Hh; cbn [bind]; eexists; repeat split.
Qed.

Lemma request_from_events_witness :
  let request :=
    request.__init__ (fun text => {| raw_path := text |}) "GET" "/"
      (fold_left (fun d hv => dict_set String.eqb d (fst hv) (snd hv))
         [("Host", "a.example"); ("host", "b.example")] [])
      "1.1" None in
  exists self' : server.Server,
    server.data_received (fun text => {| raw_path := text |})
      two_hosts_parser EmptyString
      (server.__init__ (application.__init__ None)) "GET / HTTP/1.1"
    = Ok self'
    /\ server._request self' = Some request
    /\ server._request_handler_task self' = Some request
    /\ request._match_info request = [].
Proof.
  apply (request_from_events (fun text => {| raw_path := text |})
           two_hosts_parser EmptyString (application.__init__ None)
           "GET / HTTP/1.1" "/" "1.1" "GET"
           [("Host", "a.example"); ("host", "b.example")] None).
  reflexivity.
Defined.
